(** * cots: incremental parsing of form responses into proposal documents

    A shallow embedding of [src/cots/__init__.py] (classes [App] and
    [COTS2021]) and the properties of its checkpointed ingestion loop.

    Python values are modelled as the script sees them:
    - a cell of the response sheet is a [str], or the float [nan] that
      [pandas.read_csv] puts in an empty cell;
    - a row ([pandas.Series]) is a finite map from column name to cell,
      and [row[k]] raises [KeyError] for a missing column;
    - the last processed row index is a Python [int] or [None];
    - effects (Firestore reads and writes, Drive uploads, logging,
      sleeping) are recorded in a trace, exceptions are explicit. *)

From Stdlib Require Import ZArith NArith Ascii String List.
From stdpp Require Import gmap strings list fin_maps pretty.

Open Scope Z_scope.

(** ** Data *)

(** A cell of the response sheet. *)
Inductive cell :=
| Str (s : string)
| NaN.

#[global] Instance cell_eq_dec : EqDecision cell.
Proof. solve_decision. Defined.

(** [pandas.Series]: one response, addressed by column name. *)
Abbreviation Series := (gmap string cell).

(** [pandas.DataFrame]: column names and the rows with their index labels. *)
Record DataFrame := {
  columns : list string;
  records : list (Z * Series)
}.

(** The python-docx document, as far as the script fills it. *)
Record run := { text : string; bold : bool }.

Inductive block :=
| heading (title : string) (level : Z)
| paragraph (runs : list run).

Record Document := {
  normal_font_name : option string;
  body : list block
}.

(** Exceptions that the script can meet. *)
Inductive exn :=
| KeyError (key : string)
| TypeError
| UnboundLocalError (var : string)
| HttpError
| OtherError (what : string).

#[global] Instance exn_eq_dec : EqDecision exn.
Proof. solve_decision. Defined.

(** The [config] dictionary of [App], with the entries of [COTS2021].
    Values read with [os.getenv] are [None] when the variable is unset. *)
Record FirebaseConfig := {
  cred : option string;
  project_id : option string;
  collection_name : option string;
  document_name : option string
}.

Record FolderIds := {
  individual : option string;
  panel : option string;
  roundtable : option string
}.

Record Config := {
  form_response_id : option string;
  sheet_name : option string;
  working_storage_type : string;
  working_storage_firebase : option FirebaseConfig;
  folder_ids : FolderIds
}.

(** The body of the Drive [files().create] request. *)
Record file_metadata := {
  name : string;
  mimeType : string;
  parents : list (option string)
}.

(** What [execute()] on the create request does. *)
Inductive upload_result :=
| Uploaded
| UploadHttpError
| UploadFailure (what : string).

(** A Firestore database: documents addressed by collection and name,
    each a dictionary of integer fields. *)
Abbreviation Firestore := (gmap (string * string) (gmap string Z)).

(** The [App] object: its configuration and the services it talks to.
    [sheet] is what [pd.read_csv] yields for the export URL ([None] when
    the request fails), [firestore_reachable] tells whether the Firestore
    client gets through, [gservice] answers an upload request. *)
Record App := {
  config : Config;
  sheet : option (list string * list Series);
  firestore_reachable : bool;
  gservice : file_metadata -> Document -> upload_result
}.

(** ** Effects *)

Inductive log_level := DEBUG | INFO | ERROR.

Inductive log_record :=
| LogGetting (coll doc : option string)
| LogColumns (cols : list string)
| LogFound (n : nat)
| LogUploading (gdoc_name : string) (parent_folder_id : option string)
| LogHttpError.

Inductive event :=
| ELog (lvl : log_level) (msg : log_record)
| EFirestoreGet (coll doc : string)
| EFirestoreSet (coll doc : string) (fields : gmap string Z)
| EParseRow (idx : Z)
| ESave (document : Document)
| ECreate (body : file_metadata) (media : Document) (res : upload_result)
| ESleep (secs : Z).

Inductive outcome (A : Type) :=
| Return (a : A)
| Raise (e : exn).
Arguments Return {A} a.
Arguments Raise {A} e.

Record result (A : Type) := {
  out : outcome A;
  store : Firestore;
  events : list event
}.
Arguments out {A} r.
Arguments store {A} r.
Arguments events {A} r.

(** A computation reads and writes the Firestore database, emits events
    and returns or raises. *)
Definition M (A : Type) : Type := Firestore -> result A.

Definition ret {A} (a : A) : M A :=
  fun s => {| out := Return a; store := s; events := [] |}.

Definition raise {A} (e : exn) : M A :=
  fun s => {| out := Raise e; store := s; events := [] |}.

Definition emit (e : event) : M unit :=
  fun s => {| out := Return tt; store := s; events := [e] |}.

Definition bind {A B} (m : M A) (k : A -> M B) : M B :=
  fun s =>
    let r := m s in
    match out r with
    | Return a =>
        let r' := k a (store r) in
        {| out := out r'; store := store r'; events := events r ++ events r' |}
    | Raise e => {| out := Raise e; store := store r; events := events r |}
    end.

(** [try: m except HttpError: h] *)
Definition try_except_HttpError (m : M unit) (h : M unit) : M unit :=
  fun s =>
    let r := m s in
    match out r with
    | Raise HttpError =>
        let r' := h (store r) in
        {| out := out r'; store := store r'; events := events r ++ events r' |}
    | _ => r
    end.

Declare Scope py_scope.
Delimit Scope py_scope with py.
Notation "x <- m ;; k" := (bind m (fun x => k))
  (at level 100, m at next level, right associativity) : py_scope.
Notation "m ;; k" := (bind m (fun _ => k))
  (at level 100, right associativity) : py_scope.
Open Scope py_scope.

(** ** Python primitives *)

(** [row[k]] *)
Definition getitem (row : Series) (k : string) : M cell :=
  match row !! k with
  | Some c => ret c
  | None => raise (KeyError k)
  end.

(** [a + b] on cells: string concatenation; a float operand is a
    [TypeError] on either side when the other one is a string. *)
Definition add (a b : cell) : M cell :=
  match a, b with
  | Str x, Str y => ret (Str (x +:+ y))
  | _, _ => raise TypeError
  end.

(** [a == t] for a string literal [t]. *)
Definition eq_str (a : cell) (t : string) : bool :=
  match a with
  | Str x => String.eqb x t
  | NaN => false
  end.

(** [f"{a}"] *)
Definition format (a : cell) : string :=
  match a with
  | Str x => x
  | NaN => "nan"
  end.

(** [f"{idx}"] for an [int]. *)
Definition format_int (i : Z) : string := pretty i.

(** ** python-docx *)

Definition new_Document : Document :=
  {| normal_font_name := None; body := [] |}.

Definition set_normal_font (f : string) (d : Document) : Document :=
  {| normal_font_name := Some f; body := body d |}.

Definition add_heading (t : string) (lvl : Z) (d : Document) : Document :=
  {| normal_font_name := normal_font_name d;
     body := body d ++ [heading t lvl] |}.

Definition add_block (b : block) (d : Document) : Document :=
  {| normal_font_name := normal_font_name d; body := body d ++ [b] |}.

(** [document.add_paragraph(text)]: the text goes into one run, an empty
    text gives an empty paragraph; python-docx walks through the
    characters of a non-empty text, so the float [nan] is a [TypeError]. *)
Definition add_paragraph (t : cell) (d : Document) : M Document :=
  match t with
  | Str "" => ret (add_block (paragraph []) d)
  | Str x => ret (add_block (paragraph [{| text := x; bold := false |}]) d)
  | NaN => raise TypeError
  end.

(** ** COTS2021: document builders *)

Definition Q : string := "What proposal are you planning to submit".

Definition INDIVIDUAL : string :=
  "A proposal for an individual paper, film screening or other presentationtation".
Definition PANEL : string := "A proposal for a paper panel".
Definition ROUNDTABLE : string := "A proposal for a routable".

(** [fullname = row["First name"] + " " + row["Last name"]], evaluated
    left to right. *)
Definition fullname_of (row : Series) : M string :=
  first <- getitem row "First name" ;;
  t <- add first (Str " ") ;;
  last <- getitem row "Last name" ;;
  f <- add t last ;;
  ret (format f).

(** [create_base_doc]: the cells are read in the order of the source, the
    paragraphs are then put together from them. *)
Definition create_base_doc (idx : Z) (row : Series) (title : string) : M Document :=
  fullname <- fullname_of row ;;
  let document := add_heading title 0 (set_normal_font "Arial" new_Document) in
  email <- getitem row "Email address" ;;
  timestamp <- getitem row "Timestamp" ;;
  let document :=
    add_block (paragraph
      [ {| text := "Submitted by:"; bold := true |};
        {| text := " " +:+ fullname +:+ " (" +:+ format email +:+ ")"; bold := false |};
        {| text := " At:"; bold := true |};
        {| text := " " +:+ format timestamp; bold := false |} ]) document in
  affiliation <- getitem row "Affiliation" ;;
  ret (add_block (paragraph
      [ {| text := "Affiliation:"; bold := true |};
        {| text := " " +:+ format affiliation; bold := false |} ]) document).

(** [document.add_heading(title, 1); document.add_paragraph(row[k])] *)
Definition add_section (title : string) (row : Series) (k : string)
    (document : Document) : M Document :=
  c <- getitem row k ;;
  add_paragraph c (add_heading title 1 document).

Definition create_individual_proposal_doc (idx : Z) (row : Series) : M Document :=
  document <- create_base_doc idx row "Individual/Film/Other" ;;
  add_section "Abstract" row "Abstract" document.

Definition create_panel_proposal_doc (idx : Z) (row : Series) : M Document :=
  document <- create_base_doc idx row "Panel" ;;
  document <- add_section "Topic" row "Topic of the panel" document ;;
  document <- add_section "Panelists" row "Names of the panelists" document ;;
  document <- add_section "Emails" row "Contact information of the panelists" document ;;
  add_section "Abstracts" row "Abstracts" document.

Definition create_roundtable_proposal_doc (idx : Z) (row : Series) : M Document :=
  document <- create_base_doc idx row "Roundtable" ;;
  document <- add_section "Abstract" row "Abstract.1" document ;;
  document <- add_section "Participants" row "Name of the participants" document ;;
  add_section "Emails" row "Contact information of the participants" document.

(** ** COTS2021.parse_row *)

(** The locals that the [if]/[elif] chain binds: [parent_folder_id],
    [proposal_type] and [document].  No branch taken leaves them unbound. *)
Definition bound : Type := option string * string * Document.

(** The [if]/[elif]/[elif] chain of [parse_row]; each test reads the
    discriminant cell again, as the source does. *)
Definition select_proposal (self : App) (idx : Z) (row : Series) : M (option bound) :=
  d <- getitem row Q ;;
  if eq_str d INDIVIDUAL then
    document <- create_individual_proposal_doc idx row ;;
    ret (Some (individual (folder_ids (config self)), "individual", document))
  else
    d <- getitem row Q ;;
    if eq_str d PANEL then
      document <- create_panel_proposal_doc idx row ;;
      ret (Some (panel (folder_ids (config self)), "panel", document))
    else
      d <- getitem row Q ;;
      if eq_str d ROUNDTABLE then
        document <- create_roundtable_proposal_doc idx row ;;
        ret (Some (roundtable (folder_ids (config self)), "roundtable", document))
      else ret None.

Definition gdoc_name_of (fullname : string) (idx : Z) (proposal_type : string) : string :=
  fullname +:+ " (id-" +:+ format_int idx +:+ " type-" +:+ proposal_type +:+ ")".

(** [self.gservice.files().create(...).execute()] *)
Definition files_create (self : App) (body : file_metadata) (media : Document) : M unit :=
  let res := gservice self body media in
  emit (ECreate body media res) ;;
  match res with
  | Uploaded => ret tt
  | UploadHttpError => raise HttpError
  | UploadFailure what => raise (OtherError what)
  end.

(** [parse_row].  [EParseRow idx] marks the call; the temporary file of
    the [with] block carries the saved document to the upload. *)
Definition parse_row (self : App) (idx : Z) (row : Series) : M unit :=
  emit (EParseRow idx) ;;
  fullname <- fullname_of row ;;
  locals <- select_proposal self idx row ;;
  match locals with
  | None => raise (UnboundLocalError "document")
  | Some (parent_folder_id, proposal_type, document) =>
      emit (ESave document) ;;
      let gdoc_name := gdoc_name_of fullname idx proposal_type in
      let file_metadata :=
        {| name := gdoc_name;
           mimeType := "application/vnd.google-apps.document";
           parents := [parent_folder_id] |} in
      try_except_HttpError
        (emit (ELog INFO (LogUploading gdoc_name parent_folder_id)) ;;
         files_create self file_metadata document)
        (emit (ELog ERROR LogHttpError))
  end.

(** ** App: configuration *)

(** [os.getenv(k)] and [os.getenv(k, default)] *)
Definition getenv (environ : gmap string string) (k : string) : option string :=
  environ !! k.

Definition getenv_default (environ : gmap string string) (k d : string) : string :=
  default d (environ !! k).

Definition no_folder_ids : FolderIds :=
  {| individual := None; panel := None; roundtable := None |}.

(** [App._load_config]; the base class sets no folder ids. *)
Definition _load_config (environ : gmap string string) : Config :=
  let working_storage_type := getenv_default environ "WORKING_STORAGE_TYPE" "file" in
  {| form_response_id := getenv environ "APP_FORM_RESPONSE_ID";
     sheet_name := getenv environ "APP_SHEET_NAME";
     working_storage_type := working_storage_type;
     working_storage_firebase :=
       if String.eqb working_storage_type "firebase" then
         Some {| cred := getenv environ "GOOGLE_APPLICATION_CREDENTIALS";
                 project_id := getenv environ "FIREBASE_PROJECT_ID";
                 collection_name := getenv environ "WORKING_COLLECTION_NAME";
                 document_name := getenv environ "WORKING_DOCUMENT_NAME" |}
       else None;
     folder_ids := no_folder_ids |}.

(** [COTS2021.__init__]: the configuration of [App] with the folder ids. *)
Definition COTS2021_config (environ : gmap string string) : Config :=
  let c := _load_config environ in
  {| form_response_id := form_response_id c;
     sheet_name := sheet_name c;
     working_storage_type := working_storage_type c;
     working_storage_firebase := working_storage_firebase c;
     folder_ids :=
       {| individual := getenv environ "INDIVIDUAL_PROPOSAL_FOLDER_ID";
          panel := getenv environ "PANEL_PROPOSAL_FOLDER_ID";
          roundtable := getenv environ "ROUNDTABLE_PROPOSAL_FOLDER_ID" |} |}.

(** ** App: working storage *)

(** [self.config["working_storage"]["firebase"]] *)
Definition firebase_section (self : App) : M FirebaseConfig :=
  match working_storage_firebase (config self) with
  | Some fb => ret fb
  | None => raise (KeyError "firebase")
  end.

(** [self.db.collection(c).document(d)]: the reference needs both names
    and a client that gets through. *)
Definition document_ref (self : App) (coll doc : option string) : M (string * string) :=
  match coll, doc with
  | Some c, Some d =>
      if firestore_reachable self then ret (c, d)
      else raise (OtherError "firestore")
  | _, _ => raise (OtherError "firestore")
  end.

(** [ref.get().to_dict()]: [None] for a document that does not exist. *)
Definition firestore_get (ref : string * string) : M (option (gmap string Z)) :=
  fun s =>
    {| out := Return (s !! ref); store := s;
       events := [EFirestoreGet ref.1 ref.2] |}.

(** [ref.set(fields)]: the document becomes [fields]. *)
Definition firestore_set (ref : string * string) (fields : gmap string Z) : M unit :=
  fun s =>
    {| out := Return tt; store := <[ref := fields]> s;
       events := [EFirestoreSet ref.1 ref.2 fields] |}.

(** [doc["last_processed_row"]], [doc] being a dictionary or [None]. *)
Definition subscript (doc : option (gmap string Z)) (k : string) : M Z :=
  match doc with
  | None => raise TypeError
  | Some fields =>
      match fields !! k with
      | Some v => ret v
      | None => raise (KeyError k)
      end
  end.

(** [get_last_processed_row]; without the firebase storage the function
    falls off its end and returns [None]. *)
Definition get_last_processed_row (self : App) : M (option Z) :=
  if String.eqb (working_storage_type (config self)) "firebase" then
    fb <- firebase_section self ;;
    let collection_name := collection_name fb in
    fb <- firebase_section self ;;
    let document_name := document_name fb in
    emit (ELog DEBUG (LogGetting collection_name document_name)) ;;
    ref <- document_ref self collection_name document_name ;;
    doc <- firestore_get ref ;;
    v <- subscript doc "last_processed_row" ;;
    ret (Some v)
  else ret None.

(** [update_last_processed_row] *)
Definition update_last_processed_row (self : App) (row_idx : Z) : M unit :=
  if String.eqb (working_storage_type (config self)) "firebase" then
    fb <- firebase_section self ;;
    let collection_name := collection_name fb in
    fb <- firebase_section self ;;
    let document_name := document_name fb in
    ref <- document_ref self collection_name document_name ;;
    firestore_set ref {[ "last_processed_row" := row_idx ]}
  else ret tt.

(** ** App.parse *)

(** Index labels [i], [i+1], ... for the rows of a freshly read table. *)
Fixpoint label_from (i : Z) (rows : list Series) : list (Z * Series) :=
  match rows with
  | [] => []
  | r :: rows' => (i, r) :: label_from (i + 1) rows'
  end.

(** [pd.read_csv(url)]: the table with the default index [0 .. N-1]. *)
Definition read_csv (self : App) : M DataFrame :=
  match sheet self with
  | Some (cols, rows) =>
      ret {| columns := cols; records := label_from 0 rows |}
  | None => raise (OtherError "read_csv")
  end.

(** Where the slice [[start:]] begins in a sequence of length [n]: a
    negative [start] counts from the end, and both ends are clipped. *)
Definition slice_start (start n : Z) : Z :=
  if start <? 0 then Z.max 0 (n + start) else Z.min start n.

(** [df.iloc[start:]]: positional, the rows keep their labels. *)
Definition iloc_from (df : DataFrame) (start : Z) : DataFrame :=
  {| columns := columns df;
     records :=
       drop (Z.to_nat (slice_start start (Z.of_nat (length (records df)))))
            (records df) |}.

(** [df.shape[0]] *)
Definition shape0 (df : DataFrame) : nat := length (records df).

(** [df.iterrows()] *)
Definition iterrows (df : DataFrame) : list (Z * Series) := records df.

(** The operand of [last_processed_row + 1]: adding to [None] is a
    [TypeError]. *)
Definition int_operand (v : option Z) : M Z :=
  match v with
  | Some i => ret i
  | None => raise TypeError
  end.

Definition sleep (secs : Z) : M unit := emit (ESleep secs).

(** The [for] loop of [parse]; it returns [last_processed_row]. *)
Fixpoint parse_loop (self : App) (rows : list (Z * Series))
    (last_processed_row : Z) : M Z :=
  match rows with
  | [] => ret last_processed_row
  | (idx, row) :: rows' =>
      parse_row self idx row ;;
      sleep 3 ;;
      parse_loop self rows' idx
  end.

(** [parse] *)
Definition parse (self : App) : M unit :=
  df <- read_csv self ;;
  last_processed_row <- get_last_processed_row self ;;
  emit (ELog DEBUG (LogColumns (columns df))) ;;
  last_processed_row <- int_operand last_processed_row ;;
  let to_be_processed := iloc_from df (last_processed_row + 1) in
  emit (ELog INFO (LogFound (shape0 to_be_processed))) ;;
  last_processed_row <- parse_loop self (iterrows to_be_processed) last_processed_row ;;
  update_last_processed_row self last_processed_row.

(** ** Observations on a trace *)

(** The row indices on which [parse_row] was called, in order. *)
Definition visited (evs : list event) : list Z :=
  omap (fun e => match e with EParseRow i => Some i | _ => None end) evs.

(** The Firestore writes, in order. *)
Definition checkpoint_writes (evs : list event) : list (string * string * gmap string Z) :=
  omap (fun e => match e with EFirestoreSet c d f => Some (c, d, f) | _ => None end) evs.

(** The upload requests sent to Drive with their results, in order. *)
Definition uploads (evs : list event) : list (file_metadata * Document * upload_result) :=
  omap (fun e => match e with ECreate b m r => Some (b, m, r) | _ => None end) evs.

(** The documents rendered by [document.save]. *)
Definition saved (evs : list event) : list Document :=
  omap (fun e => match e with ESave d => Some d | _ => None end) evs.

(** Events that the processing of one row can emit after its call mark. *)
Definition row_event (e : event) : Prop :=
  match e with
  | ESave _ | ECreate _ _ _ | ELog _ _ => True
  | _ => False
  end.

(** A computation that leaves the database alone and emits only events
    satisfying [P]. *)
Definition emits {A} (P : event -> Prop) (m : M A) : Prop :=
  forall s, store (m s) = s /\ Forall P (events (m s)).

Definition returns {A} (r : result A) : Prop :=
  match out r with Return _ => True | Raise _ => False end.

Definition raises {A} (r : result A) : Prop :=
  match out r with Return _ => False | Raise _ => True end.

(** ** The three kinds of proposal *)

(** The branches of the chain in [parse_row], named after the value that
    each of them gives to [proposal_type]. *)
Inductive proposal := Individual | Panel | Roundtable.

(** The answer that selects the branch. *)
Definition variant (p : proposal) : string :=
  match p with
  | Individual => INDIVIDUAL
  | Panel => PANEL
  | Roundtable => ROUNDTABLE
  end.

Definition proposal_type (p : proposal) : string :=
  match p with
  | Individual => "individual"
  | Panel => "panel"
  | Roundtable => "roundtable"
  end.

(** The folder id that the branch takes from the configuration. *)
Definition folder_of (self : App) (p : proposal) : option string :=
  match p with
  | Individual => individual (folder_ids (config self))
  | Panel => panel (folder_ids (config self))
  | Roundtable => roundtable (folder_ids (config self))
  end.

(** The builder that the branch calls. *)
Definition builder (p : proposal) : Z -> Series -> M Document :=
  match p with
  | Individual => create_individual_proposal_doc
  | Panel => create_panel_proposal_doc
  | Roundtable => create_roundtable_proposal_doc
  end.

(** The columns that [parse_row] reads for a proposal of the kind: the
    names, the columns of [create_base_doc] and those of the builder. *)
Definition required_columns (p : proposal) : list string :=
  ["First name"; "Last name"; "Email address"; "Timestamp"; "Affiliation"] ++
  match p with
  | Individual => ["Abstract"]
  | Panel => ["Topic of the panel"; "Names of the panelists";
              "Contact information of the panelists"; "Abstracts"]
  | Roundtable => ["Abstract.1"; "Name of the participants";
                   "Contact information of the participants"]
  end.

(** A computation that raises from every state. *)
Definition always_raises {A} (m : M A) : Prop := forall s, raises (m s).



(** ** Statements about a run *)




(** ** Sample runs *)

Definition environ_firebase : gmap string string :=
  list_to_map
    [ ("APP_FORM_RESPONSE_ID", "sheet-id");
      ("APP_SHEET_NAME", "Form Responses 1");
      ("WORKING_STORAGE_TYPE", "firebase");
      ("GOOGLE_APPLICATION_CREDENTIALS", "cred.json");
      ("FIREBASE_PROJECT_ID", "cots");
      ("WORKING_COLLECTION_NAME", "parser");
      ("WORKING_DOCUMENT_NAME", "state");
      ("INDIVIDUAL_PROPOSAL_FOLDER_ID", "folder-i");
      ("PANEL_PROPOSAL_FOLDER_ID", "folder-p");
      ("ROUNDTABLE_PROPOSAL_FOLDER_ID", "folder-r") ].

(** The same environment without [WORKING_STORAGE_TYPE]. *)
Definition environ_default : gmap string string :=
  delete "WORKING_STORAGE_TYPE" environ_firebase.

Definition column_names : list string :=
  [ "Timestamp"; "Email address"; "First name"; "Last name"; "Affiliation"; Q;
    "Abstract"; "Topic of the panel"; "Names of the panelists";
    "Contact information of the panelists"; "Abstracts"; "Abstract.1";
    "Name of the participants"; "Contact information of the participants" ].

(** A panel proposal; the cells of the other kinds are empty. *)
Definition row_ada : Series :=
  list_to_map
    [ ("Timestamp", Str "2021/01/05 10:11:12");
      ("Email address", Str "ada@example.org");
      ("First name", Str "Ada");
      ("Last name", Str "Lovelace");
      ("Affiliation", Str "Analytical Society");
      (Q, Str PANEL);
      ("Abstract", NaN);
      ("Topic of the panel", Str "Engines");
      ("Names of the panelists", Str "Ada; Charles");
      ("Contact information of the panelists", Str "charles@example.org");
      ("Abstracts", Str "On engines.");
      ("Abstract.1", NaN);
      ("Name of the participants", NaN);
      ("Contact information of the participants", NaN) ].

(** An individual proposal. *)
Definition row_grace : Series :=
  list_to_map
    [ ("Timestamp", Str "2021/01/06 09:00:00");
      ("Email address", Str "grace@example.org");
      ("First name", Str "Grace");
      ("Last name", Str "Hopper");
      ("Affiliation", Str "Navy");
      (Q, Str INDIVIDUAL);
      ("Abstract", Str "On compilers.");
      ("Topic of the panel", NaN);
      ("Names of the panelists", NaN);
      ("Contact information of the panelists", NaN);
      ("Abstracts", NaN);
      ("Abstract.1", NaN);
      ("Name of the participants", NaN);
      ("Contact information of the participants", NaN) ].

(** The same answers with a kind that the chain does not know. *)
Definition row_poster : Series := <[Q := Str "A proposal for a poster"]> row_grace.


Definition app_of (environ : gmap string string) (rows : list Series)
    (g : file_metadata -> Document -> upload_result) : App :=
  {| config := COTS2021_config environ;
     sheet := Some (column_names, rows);
     firestore_reachable := true;
     gservice := g |}.

Definition always_uploaded : file_metadata -> Document -> upload_result :=
  fun _ _ => Uploaded.


(** Drive answers the first panel upload with an [HttpError] and accepts
    everything else. *)
Definition drive_rejecting_first : file_metadata -> Document -> upload_result :=
  fun body _ =>
    if String.eqb (name body) "Ada Lovelace (id-0 type-panel)" then UploadHttpError
    else Uploaded.

(** The checkpoint document holding [c]. *)
Definition checkpoint_at (c : Z) : Firestore :=
  {[ ("parser", "state") := {[ "last_processed_row" := c ]} ]}.

(** ** App._create_csv_url *)

(** [str(v)] for a value read with [os.getenv]. *)
Definition py_str (v : option string) : string :=
  match v with
  | Some x => x
  | None => "None"
  end.

(** The characters that [urllib.parse.quote] never escapes: letters,
    digits and [_.-~].  A string is the sequence of its UTF-8 bytes. *)
Definition is_always_safe (c : ascii) : bool :=
  let n := N_of_ascii c in
  ((65 <=? n) && (n <=? 90) || (97 <=? n) && (n <=? 122) ||
   (48 <=? n) && (n <=? 57) ||
   Ascii.eqb c "_" || Ascii.eqb c "." || Ascii.eqb c "-" || Ascii.eqb c "~")%N.

(** One digit of [%02X]. *)
Definition hex_digit (n : N) : ascii :=
  if (n <? 10)%N then ascii_of_N (48 + n) else ascii_of_N (55 + n).

(** What [quote_plus] writes for one byte: the byte itself when it is
    safe, [+] for a space and [%XX] otherwise. *)
Definition quote_char (c : ascii) : string :=
  if is_always_safe c then String c ""
  else if Ascii.eqb c " " then "+"
  else String "%" (String (hex_digit (N_of_ascii c / 16))
                     (String (hex_digit (N_of_ascii c mod 16)) "")).

(** [urllib.parse.quote_plus(s)] with the default [safe=''] *)
Fixpoint quote_plus (s : string) : string :=
  match s with
  | EmptyString => ""
  | String c s' => quote_char c +:+ quote_plus s'
  end.

(** [urllib.parse.urlencode(query)] for a dictionary of strings, in the
    order of its items. *)
Fixpoint urlencode (query : list (string * string)) : string :=
  match query with
  | [] => ""
  | [(k, v)] => quote_plus k +:+ "=" +:+ quote_plus v
  | (k, v) :: query' => quote_plus k +:+ "=" +:+ quote_plus v +:+ "&" +:+ urlencode query'
  end.

(** [_create_csv_url]; [parse] calls it with the two values that
    [_load_config] read from the environment. *)
Definition _create_csv_url (sheet_id sheet_name : option string) : string :=
  let query := [("tqx", "out:csv"); ("sheet", py_str sheet_name)] in
  let qs := urlencode query in
  "https://docs.google.com/spreadsheets/d/" +:+ py_str sheet_id +:+ "/gviz/tq?" +:+ qs.

(** Every character of the string satisfies [p]. *)
Fixpoint all_chars (p : ascii -> bool) (s : string) : bool :=
  match s with
  | EmptyString => true
  | String c s' => p c && all_chars p s'
  end.

(** The characters that [quote_plus] can write. *)
Definition quoted_char (c : ascii) : bool :=
  is_always_safe c || Ascii.eqb c "+" || Ascii.eqb c "%".

(** The value of a digit of [%XX]. *)
Definition hex_value (c : ascii) : N :=
  let n := N_of_ascii c in
  if (n <? 58)%N then (n - 48)%N else (n - 55)%N.

(** Reading back what [quote_plus] wrote. *)
Fixpoint read_quoted (s : string) : string :=
  match s with
  | EmptyString => ""
  | String c s' =>
      if Ascii.eqb c "%" then
        match s' with
        | String h (String l s'') =>
            String (ascii_of_N (16 * hex_value h + hex_value l)) (read_quoted s'')
        | _ => String c (read_quoted s')
        end
      else if Ascii.eqb c "+" then String " " (read_quoted s')
      else String c (read_quoted s')
  end.

(** ** More vocabulary for statements *)

(** The Firestore document that the configuration addresses. *)
Definition checkpoint_address (self : App) : option (string * string) :=
  match working_storage_firebase (config self) with
  | Some fb =>
      match collection_name fb, document_name fb with
      | Some c, Some d => Some (c, d)
      | _, _ => None
      end
  | None => None
  end.

(** The object that [COTS2021()] builds in a given environment. *)
Definition COTS2021_app (environ : gmap string string)
    (sh : option (list string * list Series)) (reachable : bool)
    (g : file_metadata -> Document -> upload_result) : App :=
  {| config := COTS2021_config environ; sheet := sh;
     firestore_reachable := reachable; gservice := g |}.

(** The same object when the sheet holds other rows. *)
Definition with_sheet (self : App) (cols : list string) (rows : list Series) : App :=
  {| config := config self; sheet := Some (cols, rows);
     firestore_reachable := firestore_reachable self; gservice := gservice self |}.

(** The environment variable read for the folder of a kind. *)
Definition folder_variable (p : proposal) : string :=
  match p with
  | Individual => "INDIVIDUAL_PROPOSAL_FOLDER_ID"
  | Panel => "PANEL_PROPOSAL_FOLDER_ID"
  | Roundtable => "ROUNDTABLE_PROPOSAL_FOLDER_ID"
  end.

(** The pauses of a run, in seconds. *)
Definition sleeps (evs : list event) : list Z :=
  omap (fun e => match e with ESleep n => Some n | _ => None end) evs.

(** The title of the document of a kind. *)
Definition title_of (p : proposal) : string :=
  match p with
  | Individual => "Individual/Film/Other"
  | Panel => "Panel"
  | Roundtable => "Roundtable"
  end.

(** The sections of the document of a kind: heading and column. *)
Definition sections (p : proposal) : list (string * string) :=
  match p with
  | Individual => [("Abstract", "Abstract")]
  | Panel => [("Topic", "Topic of the panel");
              ("Panelists", "Names of the panelists");
              ("Emails", "Contact information of the panelists");
              ("Abstracts", "Abstracts")]
  | Roundtable => [("Abstract", "Abstract.1");
                   ("Participants", "Name of the participants");
                   ("Emails", "Contact information of the participants")]
  end.

(** The columns whose cells must hold text for a document of the kind. *)
Definition text_columns (p : proposal) : list string :=
  ["First name"; "Last name"] ++ (sections p).*2.

(** The columns that are formatted into the document whatever they hold. *)
Definition formatted_columns : list string :=
  ["Email address"; "Timestamp"; "Affiliation"].

(** The paragraph that [add_paragraph] makes of a text. *)
Definition paragraph_of (x : string) : block :=
  match x with
  | EmptyString => paragraph []
  | _ => paragraph [{| text := x; bold := false |}]
  end.

(** The text that a cell contributes to the document: [f"{cell}"]. *)
Definition text_of (row : Series) (k : string) : string :=
  match row !! k with
  | Some c => format c
  | None => ""
  end.

(** The document of a kind for a row, from the table of its sections. *)
Definition document_of (p : proposal) (row : Series) : Document :=
  let fullname := (text_of row "First name" +:+ " ") +:+ text_of row "Last name" in
  {| normal_font_name := Some "Arial";
     body :=
       [ heading (title_of p) 0;
         paragraph
           [ {| text := "Submitted by:"; bold := true |};
             {| text := " " +:+ fullname +:+ " (" +:+ text_of row "Email address" +:+ ")";
                bold := false |};
             {| text := " At:"; bold := true |};
             {| text := " " +:+ text_of row "Timestamp"; bold := false |} ];
         paragraph
           [ {| text := "Affiliation:"; bold := true |};
             {| text := " " +:+ text_of row "Affiliation"; bold := false |} ] ] ++
       flat_map (fun tc => [heading tc.1 1; paragraph_of (text_of row tc.2)])
                (sections p) |}.

(** ** The monad *)

Lemma bind_out_return {A B} (m : M A) (k : A -> M B) s a :
  out (m s) = Return a ->
  bind m k s =
    {| out := out (k a (store (m s)));
       store := store (k a (store (m s)));
       events := events (m s) ++ events (k a (store (m s))) |}.
Proof. intros H. unfold bind. now rewrite H. Qed.

Lemma bind_out_raise {A B} (m : M A) (k : A -> M B) s e :
  out (m s) = Raise e ->
  bind m k s = {| out := Raise e; store := store (m s); events := events (m s) |}.
Proof. intros H. unfold bind. now rewrite H. Qed.

Lemma emits_ret {A} P (a : A) : emits P (ret a).
Proof. intros s. simpl. auto. Qed.

Lemma emits_raise {A} P e : emits P (@raise A e).
Proof. intros s. simpl. auto. Qed.

Lemma emits_emit (P : event -> Prop) e : P e -> emits P (emit e).
Proof. intros H s. simpl. auto. Qed.

Lemma emits_bind {A B} P (m : M A) (k : A -> M B) :
  emits P m -> (forall a, emits P (k a)) -> emits P (bind m k).
Proof.
  intros Hm Hk s. destruct (Hm s) as [Hs He]. unfold bind.
  destruct (out (m s)) as [a|e]; simpl; [|auto].
  destruct (Hk a (store (m s))) as [Hs' He'].
  split; [congruence|]. apply Forall_app; auto.
Qed.

Lemma emits_try P (m h : M unit) :
  emits P m -> emits P h -> emits P (try_except_HttpError m h).
Proof.
  intros Hm Hh s. destruct (Hm s) as [Hs He]. unfold try_except_HttpError.
  destruct (out (m s)) as [a|[]]; simpl; auto.
  destruct (Hh (store (m s))) as [Hs' He'].
  split; [congruence|]. apply Forall_app; auto.
Qed.

Lemma emits_getitem P row k : emits P (getitem row k).
Proof. unfold getitem. destruct (row !! k); [apply emits_ret|apply emits_raise]. Qed.

Lemma emits_add P a b : emits P (add a b).
Proof. destruct a, b; simpl; (apply emits_ret || apply emits_raise). Qed.

Lemma emits_add_paragraph P t d : emits P (add_paragraph t d).
Proof.
  destruct t as [[|? ?]|]; simpl; (apply emits_ret || apply emits_raise).
Qed.

Ltac emits_tac := repeat (intros; first
  [ apply emits_bind | apply emits_try | apply emits_ret | apply emits_raise
  | apply emits_getitem | apply emits_add | apply emits_add_paragraph
  | (apply emits_emit; exact I) ]).

Lemma emits_fullname_of P row : emits P (fullname_of row).
Proof. unfold fullname_of. emits_tac. Qed.

Lemma emits_create_base_doc P idx row title : emits P (create_base_doc idx row title).
Proof. unfold create_base_doc. emits_tac. Qed.

Lemma emits_add_section P title row k d : emits P (add_section title row k d).
Proof. unfold add_section. emits_tac. Qed.

Lemma emits_individual P idx row : emits P (create_individual_proposal_doc idx row).
Proof.
  unfold create_individual_proposal_doc.
  repeat (intros; first [apply emits_create_base_doc | apply emits_add_section | apply emits_bind]).
Qed.

Lemma emits_panel P idx row : emits P (create_panel_proposal_doc idx row).
Proof.
  unfold create_panel_proposal_doc.
  repeat (intros; first [apply emits_create_base_doc | apply emits_add_section | apply emits_bind]).
Qed.

Lemma emits_roundtable P idx row : emits P (create_roundtable_proposal_doc idx row).
Proof.
  unfold create_roundtable_proposal_doc.
  repeat (intros; first [apply emits_create_base_doc | apply emits_add_section | apply emits_bind]).
Qed.

Lemma emits_select_proposal P self idx row : emits P (select_proposal self idx row).
Proof.
  unfold select_proposal.
  repeat (intros; first
    [ apply emits_individual | apply emits_panel | apply emits_roundtable
    | apply emits_getitem | apply emits_ret
    | match goal with |- emits _ (if ?b then _ else _) => destruct b end
    | apply emits_bind ]).
Qed.

Lemma emits_files_create self body media : emits row_event (files_create self body media).
Proof.
  unfold files_create. cbv zeta. apply emits_bind; [apply emits_emit; exact I|].
  intros _. destruct (gservice self body media); emits_tac.
Qed.

(** Everything [parse_row] does after its call mark. *)
Lemma parse_row_events self idx row s :
  store (parse_row self idx row s) = s /\
  exists evs, events (parse_row self idx row s) = EParseRow idx :: evs /\
              Forall row_event evs.
Proof.
  unfold parse_row.
  set (rest := (fun _ : unit => _)).
  assert (Hrest : emits row_event (rest tt)).
  { unfold rest. apply emits_bind; [apply emits_fullname_of|]. intros fullname.
    apply emits_bind; [apply emits_select_proposal|]. intros [[[p t] d]|]; [|emits_tac].
    apply emits_bind; [apply emits_emit; exact I|]. intros _.
    apply emits_try; [|apply emits_emit; exact I].
    apply emits_bind; [apply emits_emit; exact I|]. intros _.
    apply emits_files_create. }
  destruct (Hrest s) as [Hs He].
  unfold bind at 1. simpl. destruct (out (rest tt s)); simpl; eauto.
Qed.

#[global] Arguments parse_row : simpl never.

(** ** Traces *)

Lemma visited_app evs1 evs2 : visited (evs1 ++ evs2) = visited evs1 ++ visited evs2.
Proof. apply omap_app. Qed.

Lemma checkpoint_writes_app evs1 evs2 :
  checkpoint_writes (evs1 ++ evs2) = checkpoint_writes evs1 ++ checkpoint_writes evs2.
Proof. apply omap_app. Qed.

Lemma uploads_app evs1 evs2 : uploads (evs1 ++ evs2) = uploads evs1 ++ uploads evs2.
Proof. apply omap_app. Qed.

Lemma row_events_visited evs : Forall row_event evs -> visited evs = [].
Proof. induction 1 as [|[] ? H]; simpl in *; try contradiction; auto. Qed.

Lemma row_events_checkpoint_writes evs : Forall row_event evs -> checkpoint_writes evs = [].
Proof. induction 1 as [|[] ? H]; simpl in *; try contradiction; auto. Qed.

Lemma parse_row_store self idx row s : store (parse_row self idx row s) = s.
Proof. apply parse_row_events. Qed.

Lemma parse_row_visited self idx row s :
  visited (events (parse_row self idx row s)) = [idx].
Proof.
  destruct (parse_row_events self idx row s) as (_ & evs & -> & H).
  simpl. now rewrite (row_events_visited _ H).
Qed.

Lemma parse_row_checkpoint_writes self idx row s :
  checkpoint_writes (events (parse_row self idx row s)) = [].
Proof.
  destruct (parse_row_events self idx row s) as (_ & evs & -> & H).
  simpl. now apply row_events_checkpoint_writes.
Qed.

(** ** The loop *)

Lemma default_last_cons {A} (l : list A) (x a : A) :
  default a (list.last (x :: l)) = default x (list.last l).
Proof.
  revert x a. induction l as [|y l IH]; intros x a; [reflexivity|].
  change (list.last (x :: y :: l)) with (list.last (y :: l)).
  now rewrite (IH y a), (IH y x).
Qed.

(** One turn of the loop when the row is processed without an exception. *)
Lemma parse_loop_cons_return self idx row rows last s :
  out (parse_row self idx row s) = Return tt ->
  parse_loop self ((idx, row) :: rows) last s =
    {| out := out (parse_loop self rows idx s);
       store := store (parse_loop self rows idx s);
       events := events (parse_row self idx row s) ++ ESleep 3 ::
                 events (parse_loop self rows idx s) |}.
Proof.
  intros H. simpl. rewrite (bind_out_return _ _ _ _ H).
  rewrite parse_row_store. reflexivity.
Qed.

(** One turn of the loop when the row raises: the loop is left at once. *)
Lemma parse_loop_cons_raise self idx row rows last s e :
  out (parse_row self idx row s) = Raise e ->
  parse_loop self ((idx, row) :: rows) last s =
    {| out := Raise e; store := s; events := events (parse_row self idx row s) |}.
Proof.
  intros H. simpl. rewrite (bind_out_raise _ _ _ _ H).
  rewrite parse_row_store. reflexivity.
Qed.

Lemma parse_loop_store self rows last s : store (parse_loop self rows last s) = s.
Proof.
  revert last. induction rows as [|[idx row] rows IH]; intros last; [reflexivity|].
  destruct (out (parse_row self idx row s)) as [[]|e] eqn:H.
  - rewrite (parse_loop_cons_return _ _ _ _ _ _ H). cbn [events out store]. apply IH.
  - now rewrite (parse_loop_cons_raise _ _ _ _ _ _ _ H).
Qed.

Lemma parse_loop_checkpoint_writes self rows last s :
  checkpoint_writes (events (parse_loop self rows last s)) = [].
Proof.
  revert last. induction rows as [|[idx row] rows IH]; intros last; [reflexivity|].
  destruct (out (parse_row self idx row s)) as [[]|e] eqn:H.
  - rewrite (parse_loop_cons_return _ _ _ _ _ _ H). cbn [events out store].
    rewrite checkpoint_writes_app, parse_row_checkpoint_writes. simpl. apply IH.
  - rewrite (parse_loop_cons_raise _ _ _ _ _ _ _ H). cbn [events out store].
    apply parse_row_checkpoint_writes.
Qed.

(** A loop that returns has called [parse_row] on every row, in order,
    each call returned, and the value is the index of the last row. *)
Lemma parse_loop_return self rows last s v :
  out (parse_loop self rows last s) = Return v ->
  Forall (fun ir => out (parse_row self ir.1 ir.2 s) = Return tt) rows /\
  visited (events (parse_loop self rows last s)) = rows.*1 /\
  v = default last (list.last rows.*1).
Proof.
  revert last. induction rows as [|[idx row] rows IH]; intros last Hout.
  - simpl in *. inversion Hout. auto.
  - destruct (out (parse_row self idx row s)) as [[]|e] eqn:H.
    + rewrite (parse_loop_cons_return _ _ _ _ _ _ H) in *. cbn [events out store] in *.
      destruct (IH _ Hout) as (Hall & Hvis & Hv). cbn [events].
      split; [constructor; auto|]. split.
      * rewrite visited_app, parse_row_visited. simpl. now f_equal.
      * rewrite Hv. cbn [fmap list_fmap fst]. symmetry. apply default_last_cons.
    + rewrite (parse_loop_cons_raise _ _ _ _ _ _ _ H) in Hout. discriminate.
Qed.

(** A loop that raises stopped at the first row whose processing raised:
    the rows before it returned, the rows after it were not called. *)
Lemma parse_loop_raise self rows last s e :
  out (parse_loop self rows last s) = Raise e ->
  exists pre idx row post,
    rows = pre ++ (idx, row) :: post /\
    Forall (fun ir => out (parse_row self ir.1 ir.2 s) = Return tt) pre /\
    out (parse_row self idx row s) = Raise e /\
    visited (events (parse_loop self rows last s)) = pre.*1 ++ [idx].
Proof.
  revert last. induction rows as [|[idx row] rows IH]; intros last Hout.
  - discriminate.
  - destruct (out (parse_row self idx row s)) as [[]|e'] eqn:H.
    + rewrite (parse_loop_cons_return _ _ _ _ _ _ H) in *. cbn [events out store] in *.
      destruct (IH _ Hout) as (pre & i & r & post & -> & Hall & Hr & Hvis).
      exists ((idx, row) :: pre), i, r, post. cbn [events].
      split; [reflexivity|]. split; [constructor; auto|]. split; [auto|].
      rewrite visited_app, parse_row_visited. simpl. now f_equal.
    + rewrite (parse_loop_cons_raise _ _ _ _ _ _ _ H) in *. cbn [events out store] in *.
      inversion Hout; subst e'.
      exists [], idx, row, rows. cbn [events]. rewrite parse_row_visited. auto.
Qed.



(** ** The table and its slice *)

Lemma label_from_length i rows : length (label_from i rows) = length rows.
Proof. revert i. induction rows; intros i; simpl; auto. Qed.

Lemma label_from_fst i rows :
  (label_from i rows).*1 = seqZ i (Z.of_nat (length rows)).
Proof.
  revert i. induction rows as [|r rows IH]; intros i; [reflexivity|].
  rewrite seqZ_cons by (cbn [length]; lia). simpl label_from. cbn [fmap list_fmap fst].
  rewrite IH. f_equal. f_equal; cbn [length]; lia.
Qed.

Lemma drop_label_from k i rows :
  drop k (label_from i rows) = label_from (i + Z.of_nat k) (drop k rows).
Proof.
  revert i rows. induction k as [|k IH]; intros i rows.
  - replace (i + Z.of_nat 0) with i by lia. reflexivity.
  - destruct rows as [|r rows]; [reflexivity|]. cbn [drop label_from].
    rewrite IH. f_equal. lia.
Qed.

(** The labels of [df.iloc[start:]] for a freshly read table of [n] rows. *)
Lemma iloc_from_labels cols rows start :
  let n := Z.of_nat (length rows) in
  let k := slice_start start n in
  (iterrows (iloc_from {| columns := cols; records := label_from 0 rows |} start)).*1
  = seqZ k (n - k).
Proof.
  intros n k. unfold iterrows, iloc_from. cbn [records].
  rewrite label_from_length. fold n. fold k.
  assert (Hk : 0 <= k <= n).
  { unfold k, slice_start. destruct (start <? 0) eqn:E; lia. }
  rewrite drop_label_from, label_from_fst, length_drop.
  f_equal; lia.
Qed.

(** A checkpoint in its domain, [-1] or a row index, makes the slice
    start right after it. *)
Lemma slice_start_checkpoint c n : -1 <= c < n -> slice_start (c + 1) n = c + 1.
Proof.
  intros H. unfold slice_start. destruct (c + 1 <? 0) eqn:E; lia.
Qed.

(** A stored value below [-1] makes the slice count from the end of the
    table: with five rows and the value [-3] the loop starts at row 3. *)
Lemma slice_start_below_sentinel : slice_start (-3 + 1) 5 = 3.
Proof. reflexivity. Qed.

Lemma last_seqZ m n : 0 < n -> list.last (seqZ m n) = Some (m + n - 1).
Proof.
  intros H. replace n with (Z.of_nat (S (Z.to_nat (n - 1)))) at 1 by lia.
  rewrite seqZ_S, last_snoc. f_equal. lia.
Qed.

(** ** The working storage *)

(** [get_last_processed_row] returns an index only from a reachable
    Firestore document that exists and holds the field. *)
Lemma get_last_processed_row_inv self s c :
  out (get_last_processed_row self s) = Return (Some c) ->
  exists fb coll doc fields,
    working_storage_type (config self) = "firebase" /\
    working_storage_firebase (config self) = Some fb /\
    collection_name fb = Some coll /\ document_name fb = Some doc /\
    firestore_reachable self = true /\
    s !! (coll, doc) = Some fields /\ fields !! "last_processed_row" = Some c /\
    get_last_processed_row self s =
      {| out := Return (Some c); store := s;
         events := [ELog DEBUG (LogGetting (Some coll) (Some doc));
                    EFirestoreGet coll doc] |}.
Proof.
  unfold get_last_processed_row, firebase_section, document_ref.
  destruct (String.eqb (working_storage_type (config self)) "firebase") eqn:Ht;
    [|cbn; discriminate].
  apply String.eqb_eq in Ht.
  destruct (working_storage_firebase (config self)) as [fb|]; [|cbn; discriminate].
  unfold bind at 1 2; cbn.
  destruct (collection_name fb) as [coll|] eqn:Hc; [|cbn; discriminate].
  destruct (document_name fb) as [doc|] eqn:Hn; [|cbn; discriminate].
  destruct (firestore_reachable self); [|cbn; discriminate].
  unfold bind, ret, emit, firestore_get, subscript; cbn.
  destruct (s !! (coll, doc)) as [fields|] eqn:Hd; [|cbn; discriminate]. cbn.
  destruct (fields !! "last_processed_row") as [v|] eqn:Hf; [|cbn; discriminate]. cbn.
  intros [= ->]. exists fb, coll, doc, fields. repeat split; auto.
Qed.

Lemma get_last_processed_row_store self s :
  store (get_last_processed_row self s) = s /\
  checkpoint_writes (events (get_last_processed_row self s)) = [] /\
  visited (events (get_last_processed_row self s)) = [].
Proof.
  unfold get_last_processed_row, firebase_section, document_ref.
  destruct (String.eqb _ _); [|auto].
  destruct (working_storage_firebase (config self)) as [fb|]; [|auto].
  unfold bind at 1 2; cbn.
  destruct (collection_name fb) as [coll|]; [|auto].
  destruct (document_name fb) as [doc|]; [|auto].
  destruct (firestore_reachable self); [|auto].
  unfold bind, ret, emit, firestore_get, subscript; cbn.
  destruct (s !! (coll, doc)) as [fields|]; [|auto]. cbn.
  destruct (fields !! "last_processed_row"); auto.
Qed.

(** With the configuration under which the index was read, the write
    goes to the same document and cannot fail. *)
Lemma update_last_processed_row_firebase self fb coll doc v s :
  working_storage_type (config self) = "firebase" ->
  working_storage_firebase (config self) = Some fb ->
  collection_name fb = Some coll -> document_name fb = Some doc ->
  firestore_reachable self = true ->
  update_last_processed_row self v s =
    {| out := Return tt;
       store := <[(coll, doc) := {[ "last_processed_row" := v ]}]> s;
       events := [EFirestoreSet coll doc {[ "last_processed_row" := v ]}] |}.
Proof.
  intros Ht Hfb Hc Hd Hr.
  unfold update_last_processed_row, firebase_section, document_ref.
  rewrite Ht, Hfb. unfold bind at 1 2; cbn. rewrite Hc, Hd, Hr. reflexivity.
Qed.

(** ** Runs of [parse] *)

Lemma bind_ret_l {A B} (a : A) (k : A -> M B) s : bind (ret a) k s = k a s.
Proof. unfold bind, ret. cbn. now destruct (k a s). Qed.

Lemma bind_emit {B} e (k : unit -> M B) s :
  bind (emit e) k s =
    {| out := out (k tt s); store := store (k tt s); events := e :: events (k tt s) |}.
Proof. reflexivity. Qed.

(** The run when the table was fetched and the checkpoint read: the
    loop goes over the slice after the checkpoint, and only a loop that
    returns is followed by the checkpoint write. *)
Lemma parse_run self s cols rows c fb coll doc :
  sheet self = Some (cols, rows) ->
  out (get_last_processed_row self s) = Return (Some c) ->
  working_storage_firebase (config self) = Some fb ->
  collection_name fb = Some coll -> document_name fb = Some doc ->
  let to_be_processed :=
    iloc_from {| columns := cols; records := label_from 0 rows |} (c + 1) in
  let loop := parse_loop self (iterrows to_be_processed) c s in
  let head :=
    [ELog DEBUG (LogGetting (Some coll) (Some doc)); EFirestoreGet coll doc;
     ELog DEBUG (LogColumns cols);
     ELog INFO (LogFound (shape0 to_be_processed))] in
  parse self s =
    match out loop with
    | Return v =>
        {| out := Return tt;
           store := <[(coll, doc) := {[ "last_processed_row" := v ]}]> s;
           events := head ++ events loop ++
                     [EFirestoreSet coll doc {[ "last_processed_row" := v ]}] |}
    | Raise e => {| out := Raise e; store := s; events := head ++ events loop |}
    end.
Proof.
  intros Hs Hg Hfb Hc Hd to_be_processed loop head.
  destruct (get_last_processed_row_inv _ _ _ Hg)
    as (fb' & coll' & doc' & fields & Ht & Hfb' & Hc' & Hd' & Hr & _ & _ & Heq).
  assert (fb' = fb) as -> by congruence.
  assert (coll' = coll) as -> by congruence.
  assert (doc' = doc) as -> by congruence.
  unfold parse, read_csv. rewrite Hs, bind_ret_l.
  rewrite (bind_out_return _ _ _ _ Hg), Heq. cbn [out store events columns].
  rewrite bind_emit. unfold int_operand. rewrite bind_ret_l, bind_emit.
  fold to_be_processed.
  pose proof (parse_loop_store self (iterrows to_be_processed) c s) as Hst.
  fold loop in Hst.
  destruct (out loop) as [v|e] eqn:Hl; unfold loop in Hl.
  - rewrite (bind_out_return _ _ _ _ Hl). fold loop. rewrite Hst.
    rewrite (update_last_processed_row_firebase _ _ _ _ _ _ Ht Hfb Hc Hd Hr).
    cbn [out store events]. reflexivity.
  - rewrite (bind_out_raise _ _ _ _ Hl). fold loop. rewrite Hst.
    cbn [out store events]. reflexivity.
Qed.

(** A run that cannot fetch the table or read an index raises before
    the loop and touches nothing. *)
Lemma parse_no_start self s :
  sheet self = None \/ (forall c, out (get_last_processed_row self s) <> Return (Some c)) ->
  raises (parse self s) /\ store (parse self s) = s /\
  checkpoint_writes (events (parse self s)) = [] /\
  visited (events (parse self s)) = [].
Proof.
  intros H. unfold parse, read_csv, raises.
  destruct (sheet self) as [[cols rows]|]; [|cbn; auto].
  destruct H as [H|H]; [discriminate|].
  rewrite bind_ret_l.
  destruct (get_last_processed_row_store self s) as (Hst & Hw & Hv).
  destruct (out (get_last_processed_row self s)) as [[c|]|e] eqn:Hg.
  - now destruct (H c).
  - rewrite (bind_out_return _ _ _ _ Hg). cbn [out store events].
    rewrite bind_emit. unfold int_operand, raise, bind. cbn [out store events].
    rewrite Hst, checkpoint_writes_app, visited_app, Hw, Hv. auto.
  - rewrite (bind_out_raise _ _ _ _ Hg). cbn [out store events]. auto.
Qed.

(** ** Processing one row *)

Lemma silent_events {A} (m : M A) s :
  emits (fun _ => False) m -> store (m s) = s /\ events (m s) = [].
Proof.
  intros H. destruct (H s) as [Hs He]. split; [exact Hs|].
  destruct (events (m s)); [reflexivity|]. now inversion He.
Qed.

Lemma fullname_of_silent row s :
  store (fullname_of row s) = s /\ events (fullname_of row s) = [].
Proof. apply silent_events, emits_fullname_of. Qed.

Lemma select_proposal_silent self idx row s :
  store (select_proposal self idx row s) = s /\
  events (select_proposal self idx row s) = [].
Proof. apply silent_events, emits_select_proposal. Qed.

(** A row whose name cannot be put together: [parse_row] raises at its
    first statement. *)
Lemma parse_row_fullname_raise self idx row s e :
  out (fullname_of row s) = Raise e ->
  parse_row self idx row s =
    {| out := Raise e; store := s; events := [EParseRow idx] |}.
Proof.
  intros H. destruct (fullname_of_silent row s) as [Hs He].
  unfold parse_row. rewrite bind_emit, (bind_out_raise _ _ _ _ H), Hs, He.
  reflexivity.
Qed.

(** A row whose builder raises: nothing is saved or uploaded. *)
Lemma parse_row_select_raise self idx row s fullname e :
  out (fullname_of row s) = Return fullname ->
  out (select_proposal self idx row s) = Raise e ->
  parse_row self idx row s =
    {| out := Raise e; store := s; events := [EParseRow idx] |}.
Proof.
  intros Hf H. destruct (fullname_of_silent row s) as [Hs He].
  destruct (select_proposal_silent self idx row s) as [Hs' He'].
  unfold parse_row. rewrite bind_emit, (bind_out_return _ _ _ _ Hf), Hs, He.
  cbn [out store events]. rewrite (bind_out_raise _ _ _ _ H), Hs', He'.
  reflexivity.
Qed.

(** A row for which no branch is taken: [document] is unbound at
    [document.save]. *)
Lemma parse_row_unbound self idx row s fullname :
  out (fullname_of row s) = Return fullname ->
  out (select_proposal self idx row s) = Return None ->
  parse_row self idx row s =
    {| out := Raise (UnboundLocalError "document"); store := s;
       events := [EParseRow idx] |}.
Proof.
  intros Hf H. destruct (fullname_of_silent row s) as [Hs He].
  destruct (select_proposal_silent self idx row s) as [Hs' He'].
  unfold parse_row. rewrite bind_emit, (bind_out_return _ _ _ _ Hf), Hs, He.
  cbn [out store events]. rewrite (bind_out_return _ _ _ _ H), Hs', He'.
  reflexivity.
Qed.

(** A row for which a branch is taken and the document built: the
    document is saved and one upload request is sent; an [HttpError] is
    logged and swallowed, any other failure of the request propagates. *)
Lemma parse_row_bound self idx row s fullname parent t document :
  out (fullname_of row s) = Return fullname ->
  out (select_proposal self idx row s) = Return (Some (parent, t, document)) ->
  let gdoc_name := gdoc_name_of fullname idx t in
  let body :=
    {| name := gdoc_name;
       mimeType := "application/vnd.google-apps.document";
       parents := [parent] |} in
  let res := gservice self body document in
  parse_row self idx row s =
    {| out := match res with
              | UploadFailure what => Raise (OtherError what)
              | _ => Return tt
              end;
       store := s;
       events := [EParseRow idx; ESave document;
                  ELog INFO (LogUploading gdoc_name parent);
                  ECreate body document res] ++
                 match res with
                 | UploadHttpError => [ELog ERROR LogHttpError]
                 | _ => []
                 end |}.
Proof.
  intros Hf H gdoc_name body res.
  destruct (fullname_of_silent row s) as [Hs He].
  destruct (select_proposal_silent self idx row s) as [Hs' He'].
  unfold parse_row. rewrite bind_emit, (bind_out_return _ _ _ _ Hf), Hs, He.
  cbn [out store events]. rewrite (bind_out_return _ _ _ _ H), Hs', He'.
  cbn [out store events]. rewrite bind_emit.
  fold gdoc_name. fold body.
  unfold try_except_HttpError, files_create. rewrite !bind_emit.
  fold res. destruct res; reflexivity.
Qed.

(** ** The branches *)

Lemma fullname_of_str row f l s :
  row !! "First name" = Some (Str f) -> row !! "Last name" = Some (Str l) ->
  fullname_of row s = ret ((f +:+ " ") +:+ l) s.
Proof.
  intros Hf Hl. unfold fullname_of, getitem. rewrite Hf, Hl.
  now rewrite !bind_ret_l.
Qed.

Lemma eq_str_false d t : d <> Str t -> eq_str d t = false.
Proof.
  destruct d as [x|]; [|reflexivity]. intros H. apply String.eqb_neq. congruence.
Qed.

(** The chain takes the branch of the kind whose answer the cell holds. *)
Lemma select_proposal_variant self idx row p s :
  row !! Q = Some (Str (variant p)) ->
  select_proposal self idx row s =
    (document <- builder p idx row ;;
     ret (Some (folder_of self p, proposal_type p, document))) s.
Proof.
  intros H. unfold select_proposal, getitem. rewrite H.
  destruct p; cbn [variant builder folder_of proposal_type];
    repeat (rewrite bind_ret_l;
            match goal with
            | |- context [eq_str (Str ?a) ?b] =>
                let v := eval vm_compute in (eq_str (Str a) b) in
                change (eq_str (Str a) b) with v; cbv iota
            end);
    reflexivity.
Qed.

(** Any other cell takes no branch. *)
Lemma select_proposal_other self idx row d s :
  row !! Q = Some d -> (forall p, d <> Str (variant p)) ->
  select_proposal self idx row s = ret None s.
Proof.
  intros H Hd. unfold select_proposal, getitem. rewrite H.
  rewrite bind_ret_l, (eq_str_false d INDIVIDUAL (Hd Individual)).
  rewrite bind_ret_l, (eq_str_false d PANEL (Hd Panel)).
  rewrite bind_ret_l, (eq_str_false d ROUNDTABLE (Hd Roundtable)).
  reflexivity.
Qed.

(** ** Exceptions of a row *)

Lemma always_raises_bind_l {A B} (m : M A) (k : A -> M B) :
  always_raises m -> always_raises (bind m k).
Proof.
  intros H s. specialize (H s). unfold raises, bind in *.
  destruct (out (m s)); [contradiction|exact I].
Qed.

Lemma always_raises_bind_r {A B} (m : M A) (k : A -> M B) :
  (forall a, always_raises (k a)) -> always_raises (bind m k).
Proof.
  intros H s. unfold raises, bind.
  destruct (out (m s)) as [a|e]; [|exact I]. apply (H a).
Qed.

Lemma always_raises_getitem row k : row !! k = None -> always_raises (getitem row k).
Proof. intros H s. unfold getitem. rewrite H. exact I. Qed.

(** Search for the read of the absent column along the statements. *)
Ltac find_raise :=
  first
    [ solve [apply always_raises_getitem; assumption]
    | solve [apply always_raises_bind_l; find_raise]
    | (apply always_raises_bind_r; intros; find_raise) ].

Lemma fullname_of_absent row k :
  k ∈ ["First name"; "Last name"] -> row !! k = None ->
  always_raises (fullname_of row).
Proof.
  intros Hk H. unfold fullname_of.
  repeat (apply elem_of_cons in Hk; destruct Hk as [->|Hk]; [find_raise|]).
  now apply elem_of_nil in Hk.
Qed.

Lemma builder_absent p idx row k :
  k ∈ required_columns p -> row !! k = None -> always_raises (builder p idx row).
Proof.
  intros Hk H.
  destruct p; cbn [builder required_columns app] in *;
    unfold create_individual_proposal_doc, create_panel_proposal_doc,
      create_roundtable_proposal_doc, add_section, create_base_doc, fullname_of;
    repeat (apply elem_of_cons in Hk; destruct Hk as [->|Hk]; [find_raise|]);
    now apply elem_of_nil in Hk.
Qed.










(** ** The run as a whole *)

(** [last_processed_row] after a loop over consecutive labels. *)
Lemma default_last_seqZ c k m :
  0 <= m -> default c (list.last (seqZ k m)) = if decide (m = 0) then c else k + m - 1.
Proof.
  intros Hm. case_decide as E.
  - subst m. reflexivity.
  - rewrite last_seqZ by lia. reflexivity.
Qed.

(** Reading the index back from the document that holds it. *)
Lemma get_last_processed_row_firebase self fb coll doc fields v s :
  working_storage_type (config self) = "firebase" ->
  working_storage_firebase (config self) = Some fb ->
  collection_name fb = Some coll -> document_name fb = Some doc ->
  firestore_reachable self = true ->
  s !! (coll, doc) = Some fields -> fields !! "last_processed_row" = Some v ->
  get_last_processed_row self s =
    {| out := Return (Some v); store := s;
       events := [ELog DEBUG (LogGetting (Some coll) (Some doc));
                  EFirestoreGet coll doc] |}.
Proof.
  intros Ht Hfb Hc Hd Hr Hdoc Hf.
  unfold get_last_processed_row, firebase_section, document_ref.
  rewrite Ht, Hfb. unfold bind at 1 2; cbn. rewrite Hc, Hd, Hr.
  unfold bind, ret, emit, firestore_get, subscript; cbn. rewrite Hdoc. cbn.
  rewrite Hf. reflexivity.
Qed.

(** What a run that got to the loop shows: the rows visited are those
    the loop visited, and the checkpoint is written exactly when the loop
    returns, once, as the last effect, with the value of the loop. *)
Lemma parse_run_observed self s cols rows c :
  sheet self = Some (cols, rows) ->
  out (get_last_processed_row self s) = Return (Some c) ->
  let loop :=
    parse_loop self
      (iterrows (iloc_from {| columns := cols; records := label_from 0 rows |} (c + 1)))
      c s in
  exists coll doc,
    visited (events (parse self s)) = visited (events loop) /\
    match out loop with
    | Return v =>
        out (parse self s) = Return tt /\
        store (parse self s) = <[(coll, doc) := {[ "last_processed_row" := v ]}]> s /\
        checkpoint_writes (events (parse self s)) =
          [(coll, doc, {[ "last_processed_row" := v ]})] /\
        (exists evs, events (parse self s) =
                       evs ++ [EFirestoreSet coll doc {[ "last_processed_row" := v ]}]) /\
        out (get_last_processed_row self (store (parse self s))) = Return (Some v)
    | Raise e =>
        out (parse self s) = Raise e /\ store (parse self s) = s /\
        checkpoint_writes (events (parse self s)) = []
    end.
Proof.
  intros Hs Hg loop.
  destruct (get_last_processed_row_inv _ _ _ Hg)
    as (fb & coll & doc & fields & Ht & Hfb & Hc & Hd & Hr & _ & _ & _).
  pose proof (parse_run self s cols rows c fb coll doc Hs Hg Hfb Hc Hd) as Hrun.
  cbv zeta in Hrun. fold loop in Hrun.
  pose proof (parse_loop_checkpoint_writes self
    (iterrows (iloc_from {| columns := cols; records := label_from 0 rows |} (c + 1)))
    c s) as Hw. fold loop in Hw.
  clearbody loop.
  exists coll, doc. destruct (out loop) as [v|e]; rewrite Hrun; cbn [out store events].
  - split; [|split; [reflexivity|split; [reflexivity|split; [|split]]]].
    + rewrite !visited_app. cbn. now rewrite app_nil_r.
    + rewrite !checkpoint_writes_app, Hw. reflexivity.
    + rewrite app_assoc. eauto.
    + erewrite get_last_processed_row_firebase; eauto.
      * apply lookup_insert_eq.
      * apply lookup_singleton_eq.
  - split; [|split; [reflexivity|split; [reflexivity|]]].
    + rewrite !visited_app. reflexivity.
    + rewrite !checkpoint_writes_app, Hw. reflexivity.
Qed.


(** ** The checkpoint write *)



(** ** The rows of a run *)






(** ** What a row can do *)

(** Either [parse_row] raises before anything is saved or uploaded, or a
    branch was taken and its document built. *)
Lemma parse_row_cases self idx row s :
  (raises (parse_row self idx row s) /\
   events (parse_row self idx row s) = [EParseRow idx]) \/
  (exists fullname parent t document,
     out (fullname_of row s) = Return fullname /\
     out (select_proposal self idx row s) = Return (Some (parent, t, document))).
Proof.
  destruct (out (fullname_of row s)) as [fullname|e] eqn:Hf.
  - destruct (out (select_proposal self idx row s)) as [[[[p t] d]|]|e] eqn:Hsel.
    + right. eauto 6.
    + left. rewrite (parse_row_unbound _ _ _ _ _ Hf Hsel). split; [exact I|reflexivity].
    + left. rewrite (parse_row_select_raise _ _ _ _ _ _ Hf Hsel).
      split; [exact I|reflexivity].
  - left. rewrite (parse_row_fullname_raise _ _ _ _ _ Hf). split; [exact I|reflexivity].
Qed.

(** The branch of a kind whose document is built binds the locals. *)
Lemma select_proposal_built self idx row p document s :
  row !! Q = Some (Str (variant p)) ->
  out (builder p idx row s) = Return document ->
  out (select_proposal self idx row s) =
    Return (Some (folder_of self p, proposal_type p, document)).
Proof.
  intros HQ Hb. rewrite (select_proposal_variant _ _ _ _ _ HQ).
  rewrite (bind_out_return _ _ _ _ Hb). reflexivity.
Qed.

(** A row with an answer that is none of the three variants raises
    [UnboundLocalError] once its name is put together. *)
Lemma parse_row_unclassified self idx row d f l s :
  row !! "First name" = Some (Str f) -> row !! "Last name" = Some (Str l) ->
  row !! Q = Some d -> (forall p, d <> Str (variant p)) ->
  parse_row self idx row s =
    {| out := Raise (UnboundLocalError "document"); store := s;
       events := [EParseRow idx] |}.
Proof.
  intros Hf Hl HQ Hd. eapply parse_row_unbound.
  - rewrite (fullname_of_str _ _ _ _ Hf Hl). reflexivity.
  - rewrite (select_proposal_other _ _ _ _ _ HQ Hd). reflexivity.
Qed.


(** ** Rows that cannot be processed *)

(** C1: what the code does on a table whose first new row answers the
    question with a text that is none of the three variants: no branch
    of [parse_row] binds [document], the row raises
    [UnboundLocalError] at [document.save], the exception leaves the
    loop of [parse], the following row is not visited and the checkpoint
    is neither written nor changed. *)
Theorem unclassified_row_aborts_run :
  let self := app_of environ_firebase [row_poster; row_ada] always_uploaded in
  let s := checkpoint_at (-1) in
  row_poster !! Q = Some (Str "A proposal for a poster") /\
  out (get_last_processed_row self s) = Return (Some (-1)) /\
  out (parse_row self 0 row_poster s) = Raise (UnboundLocalError "document") /\
  out (parse self s) = Raise (UnboundLocalError "document") /\
  visited (events (parse self s)) = [0] /\
  checkpoint_writes (events (parse self s)) = [] /\
  store (parse self s) = s.
Proof. vm_compute. repeat split. Qed.




(** ** Failed uploads *)




(** ** Which rows a run visits *)




(** ** Reading the checkpoint *)

(** C7 (counterexample): with the firebase storage and no checkpoint
    document, [get_last_processed_row] does not return a sentinel: it
    raises [TypeError], and so does the run. *)
Lemma no_checkpoint_document_raises :
  let self := app_of environ_firebase [row_ada] always_uploaded in
  let s : Firestore := ∅ in
  s !! ("parser", "state") = None /\
  out (get_last_processed_row self s) = Raise TypeError /\
  ~ returns (get_last_processed_row self s) /\
  out (parse self s) = Raise TypeError.
Proof.
  cbv zeta. split; [reflexivity|]. split; [vm_compute; reflexivity|].
  split; [|vm_compute; reflexivity].
  intros H. vm_compute in H. exact H.
Qed.

(** C7 (amended): with the firebase storage configured and reachable,
    [get_last_processed_row] returns the value of the field
    [last_processed_row] of the checkpoint document and changes nothing;
    when the document does not exist it raises [TypeError]: there is no
    sentinel, the document has to be there before the first run. *)
Theorem get_last_processed_row_stored self fb coll doc s :
  working_storage_type (config self) = "firebase" ->
  working_storage_firebase (config self) = Some fb ->
  collection_name fb = Some coll -> document_name fb = Some doc ->
  firestore_reachable self = true ->
  (forall fields v,
     s !! (coll, doc) = Some fields -> fields !! "last_processed_row" = Some v ->
     out (get_last_processed_row self s) = Return (Some v)) /\
  (s !! (coll, doc) = None -> out (get_last_processed_row self s) = Raise TypeError) /\
  store (get_last_processed_row self s) = s.
Proof.
  intros Ht Hfb Hc Hd Hr. split; [|split].
  - intros fields v Hdoc Hf.
    now rewrite (get_last_processed_row_firebase _ _ _ _ _ _ _ Ht Hfb Hc Hd Hr Hdoc Hf).
  - intros Hdoc.
    unfold get_last_processed_row, firebase_section, document_ref.
    rewrite Ht, Hfb. unfold bind at 1 2; cbn. rewrite Hc, Hd, Hr.
    unfold bind, ret, emit, firestore_get, subscript; cbn. rewrite Hdoc. reflexivity.
  - apply get_last_processed_row_store.
Qed.

(** The amended C7 at the sample configuration. *)
Lemma get_last_processed_row_stored_witness :
  let self := app_of environ_firebase [row_ada] always_uploaded in
  out (get_last_processed_row self (checkpoint_at 4)) = Return (Some 4) /\
  out (get_last_processed_row self ∅) = Raise TypeError.
Proof.
  cbv zeta.
  pose (self := app_of environ_firebase [row_ada] always_uploaded).
  pose (fb := {| cred := Some "cred.json"; project_id := Some "cots";
                 collection_name := Some "parser"; document_name := Some "state" |}).
  assert (Hfb : working_storage_firebase (config self) = Some fb)
    by (vm_compute; reflexivity).
  split.
  - destruct (get_last_processed_row_stored self fb "parser" "state" (checkpoint_at 4)
                eq_refl Hfb eq_refl eq_refl eq_refl) as (H & _ & _).
    apply (H {[ "last_processed_row" := 4 ]}); vm_compute; reflexivity.
  - destruct (get_last_processed_row_stored self fb "parser" "state" ∅
                eq_refl Hfb eq_refl eq_refl eq_refl) as (_ & H & _).
    apply H. reflexivity.
Defined.

(** ** Names, kinds and folders *)

(** C8: for a row with text in the name cells, an answer that selects a
    kind and a document that its builder returns, [parse_row] sends one
    upload request, for that document, into the folder of the kind and
    under the name made of the first name, a space, the last name and
    [(id-<row index> type-<kind>)]. *)
Theorem gdoc_name_convention self idx row p f l document s :
  row !! "First name" = Some (Str f) ->
  row !! "Last name" = Some (Str l) ->
  row !! Q = Some (Str (variant p)) ->
  out (builder p idx row s) = Return document ->
  let gdoc_name :=
    ((f +:+ " ") +:+ l) +:+ " (id-" +:+ pretty idx +:+ " type-" +:+
    proposal_type p +:+ ")" in
  let body :=
    {| name := gdoc_name;
       mimeType := "application/vnd.google-apps.document";
       parents := [folder_of self p] |} in
  uploads (events (parse_row self idx row s)) =
    [(body, document, gservice self body document)].
Proof.
  intros Hf Hl HQ Hb gdoc_name body.
  assert (Hfull : out (fullname_of row s) = Return ((f +:+ " ") +:+ l))
    by (now rewrite (fullname_of_str _ _ _ _ Hf Hl)).
  pose proof (select_proposal_built self idx row p document s HQ Hb) as Hsel.
  rewrite (parse_row_bound _ _ _ _ _ _ _ _ Hfull Hsel). cbv zeta. cbn [events].
  rewrite uploads_app. unfold gdoc_name_of, format_int. fold gdoc_name. fold body.
  destruct (gservice self body document); reflexivity.
Qed.

(** C8 at row 7, a panel proposal of Ada Lovelace. *)
Lemma gdoc_name_convention_witness :
  let self := app_of environ_firebase [row_ada] always_uploaded in
  (fun u => name u.1.1) <$> uploads (events (parse_row self 7 row_ada ∅)) =
    ["Ada Lovelace (id-7 type-panel)"].
Proof.
  cbv zeta.
  pose (self := app_of environ_firebase [row_ada] always_uploaded).
  assert (Hb : exists document, out (builder Panel 7 row_ada ∅) = Return document).
  { eexists. vm_compute. reflexivity. }
  destruct Hb as (document & Hb).
  rewrite (gdoc_name_convention self 7 row_ada Panel "Ada" "Lovelace" document ∅);
    [reflexivity|vm_compute; reflexivity..|exact Hb].
Defined.



(** ** Storage other than firebase *)

(** C10: with a working storage type other than [firebase], which is
    what an unset [WORKING_STORAGE_TYPE] gives, [get_last_processed_row]
    returns [None] and [update_last_processed_row] writes nothing; every
    run raises without visiting a row, and once the table is fetched the
    exception is the [TypeError] of [last_processed_row + 1]. *)
Theorem only_firebase_storage_works self s :
  working_storage_type (config self) <> "firebase" ->
  get_last_processed_row self s = ret None s /\
  (forall row_idx, update_last_processed_row self row_idx s = ret tt s) /\
  raises (parse self s) /\
  visited (events (parse self s)) = [] /\
  store (parse self s) = s /\
  (sheet self <> None -> out (parse self s) = Raise TypeError) /\
  (forall environ : gmap string string,
     environ !! "WORKING_STORAGE_TYPE" = None ->
     working_storage_type (COTS2021_config environ) = "file" /\
     working_storage_type (COTS2021_config environ) <> "firebase").
Proof.
  intros Ht. apply String.eqb_neq in Ht.
  assert (Hget : get_last_processed_row self s = ret None s)
    by (unfold get_last_processed_row; now rewrite Ht).
  assert (Hno : forall c, out (get_last_processed_row self s) <> Return (Some c))
    by (intros c; rewrite Hget; discriminate).
  destruct (parse_no_start self s (or_intror Hno)) as (Hr & Hst & _ & Hv).
  split; [exact Hget|]. split.
  { intros row_idx. unfold update_last_processed_row. now rewrite Ht. }
  split; [exact Hr|]. split; [exact Hv|]. split; [exact Hst|]. split.
  - intros Hs. unfold parse, read_csv.
    destruct (sheet self) as [[cols rows]|]; [|contradiction].
    rewrite bind_ret_l. unfold bind at 1. rewrite Hget. reflexivity.
  - intros environ He. unfold COTS2021_config, _load_config, getenv_default.
    cbn [working_storage_type]. rewrite He. split; [reflexivity|discriminate].
Qed.

(** C10 at the sample environment without [WORKING_STORAGE_TYPE]. *)
Lemma only_firebase_storage_works_witness :
  let self := app_of environ_default [row_ada; row_grace] always_uploaded in
  let s := checkpoint_at (-1) in
  out (get_last_processed_row self s) = Return None /\
  out (parse self s) = Raise TypeError /\
  visited (events (parse self s)) = [] /\
  working_storage_type (config self) = "file".
Proof.
  cbv zeta.
  set (self := app_of environ_default [row_ada; row_grace] always_uploaded).
  assert (Ht : working_storage_type (config self) <> "firebase")
    by (vm_compute; discriminate).
  destruct (only_firebase_storage_works self (checkpoint_at (-1)) Ht)
    as (Hget & _ & _ & Hv & _ & Hexn & Henv).
  split; [now rewrite Hget|]. split; [apply Hexn; discriminate|].
  split; [exact Hv|].
  apply (Henv environ_default). vm_compute. reflexivity.
Defined.

(** ** The export URL *)

Lemma all_chars_app p s1 s2 :
  all_chars p (s1 +:+ s2) = all_chars p s1 && all_chars p s2.
Proof.
  induction s1 as [|c s1 IH]; [reflexivity|].
  change (String c s1 +:+ s2) with (String c (s1 +:+ s2)).
  cbn [all_chars]. rewrite IH. now rewrite andb_assoc.
Qed.

Lemma quote_char_quoted c : all_chars quoted_char (quote_char c) = true.
Proof. destruct c as [[] [] [] [] [] [] [] []]; reflexivity. Qed.

Lemma quote_plus_quoted s : all_chars quoted_char (quote_plus s) = true.
Proof.
  induction s as [|c s IH]; [reflexivity|]. cbn [quote_plus].
  now rewrite all_chars_app, quote_char_quoted, IH.
Qed.

Lemma read_quoted_quote_char c r :
  read_quoted (quote_char c +:+ r) = String c (read_quoted r).
Proof. destruct c as [[] [] [] [] [] [] [] []]; reflexivity. Qed.

Lemma read_quoted_quote_plus s : read_quoted (quote_plus s) = s.
Proof.
  induction s as [|c s IH]; [reflexivity|]. cbn [quote_plus].
  now rewrite read_quoted_quote_char, IH.
Qed.

Lemma append_inv_head (p s1 s2 : string) : p +:+ s1 = p +:+ s2 -> s1 = s2.
Proof. induction p as [|c p IH]; cbn; [auto|]. intros [= H]. auto. Qed.

Lemma create_csv_url_shape sheet_id sheet_name :
  _create_csv_url sheet_id sheet_name =
    "https://docs.google.com/spreadsheets/d/" +:+ py_str sheet_id +:+
    "/gviz/tq?tqx=out%3Acsv&sheet=" +:+ quote_plus (py_str sheet_name).
Proof. reflexivity. Qed.

(** X1: the export URL is the fixed address with the sheet id put in as
    it is and the query [tqx=out%3Acsv&sheet=<name>], where the name is
    written with letters, digits, [_.-~], [+] and [%] only; an unset id
    or name goes in as the text [None]. *)
Theorem create_csv_url_query_is_quoted sheet_id sheet_name :
  exists q,
    _create_csv_url sheet_id sheet_name =
      "https://docs.google.com/spreadsheets/d/" +:+ py_str sheet_id +:+
      "/gviz/tq?tqx=out%3Acsv&sheet=" +:+ q /\
    q = quote_plus (py_str sheet_name) /\
    all_chars quoted_char q = true /\
    read_quoted q = py_str sheet_name.
Proof.
  exists (quote_plus (py_str sheet_name)).
  split; [apply create_csv_url_shape|]. split; [reflexivity|].
  split; [apply quote_plus_quoted|apply read_quoted_quote_plus].
Qed.

(** X2: for one sheet id, two sheet names that give the same URL are
    the same text: quoting loses nothing. *)
Theorem create_csv_url_inj sheet_id name1 name2 :
  _create_csv_url sheet_id (Some name1) = _create_csv_url sheet_id (Some name2) ->
  name1 = name2.
Proof.
  rewrite !create_csv_url_shape. intros H.
  do 3 apply append_inv_head in H. cbn [py_str] in H.
  rewrite <- (read_quoted_quote_plus name1), <- (read_quoted_quote_plus name2).
  now rewrite H.
Qed.

Lemma create_csv_url_inj_witness :
  _create_csv_url (Some "id") (Some "Sheet 1") =
  _create_csv_url (Some "id") (Some ("Sheet" +:+ " 1")) /\
  "Sheet 1" = "Sheet" +:+ " 1".
Proof.
  split; [reflexivity|].
  apply (create_csv_url_inj (Some "id")). reflexivity.
Defined.

(** X3: a name made of letters, digits and [_.-~] is quoted as itself. *)
Theorem quote_plus_safe_name s :
  all_chars is_always_safe s = true -> quote_plus s = s.
Proof.
  induction s as [|c s IH]; [reflexivity|]. cbn [all_chars quote_plus].
  intros H. apply andb_true_iff in H. destruct H as [Hc Hs].
  unfold quote_char. rewrite Hc, (IH Hs). reflexivity.
Qed.

Lemma quote_plus_safe_name_witness :
  all_chars is_always_safe "Form_Responses-1" = true /\
  quote_plus "Form_Responses-1" = "Form_Responses-1".
Proof.
  split; [reflexivity|]. apply quote_plus_safe_name. reflexivity.
Defined.

(** ** The working storage, further *)

Lemma firebase_section_of_environ environ :
  working_storage_firebase (COTS2021_config environ) =
    if String.eqb (working_storage_type (COTS2021_config environ)) "firebase"
    then Some {| cred := environ !! "GOOGLE_APPLICATION_CREDENTIALS";
                 project_id := environ !! "FIREBASE_PROJECT_ID";
                 collection_name := environ !! "WORKING_COLLECTION_NAME";
                 document_name := environ !! "WORKING_DOCUMENT_NAME" |}
    else None.
Proof. reflexivity. Qed.

(** X4: an object built from the environment has its firebase section
    exactly when its storage type is [firebase], so the two storage
    functions never fail with [KeyError] on [config["working_storage"]]. *)
Theorem storage_section_is_there environ sh reachable g s row_idx :
  let self := COTS2021_app environ sh reachable g in
  out (get_last_processed_row self s) <> Raise (KeyError "firebase") /\
  out (update_last_processed_row self row_idx s) <> Raise (KeyError "firebase").
Proof.
  cbv zeta. unfold get_last_processed_row, update_last_processed_row, firebase_section.
  cbn [config COTS2021_app]. rewrite firebase_section_of_environ.
  destruct (String.eqb _ _); [|split; discriminate].
  unfold document_ref, bind at 1 2 8 9; cbn [out store events ret collection_name document_name].
  destruct (environ !! "WORKING_COLLECTION_NAME") as [c|];
    [|split; discriminate].
  destruct (environ !! "WORKING_DOCUMENT_NAME") as [d|]; [|split; discriminate].
  destruct reachable; [|split; discriminate].
  unfold bind, ret, emit, firestore_get, firestore_set, subscript; cbn.
  split; [|discriminate].
  destruct (s !! (c, d)) as [fields|]; [|discriminate]. cbn.
  destruct (fields !! "last_processed_row"); cbn; [discriminate|].
  intros [= H].
Qed.


(** X5: with [WORKING_STORAGE_TYPE=firebase] and a reachable database,
    the checkpoint is the field [last_processed_row] of the document
    named by [WORKING_COLLECTION_NAME] and [WORKING_DOCUMENT_NAME]:
    [update_last_processed_row] writes it there and
    [get_last_processed_row] reads it from there. *)
Theorem checkpoint_document_from_environ environ sh g coll doc s :
  environ !! "WORKING_STORAGE_TYPE" = Some "firebase" ->
  environ !! "WORKING_COLLECTION_NAME" = Some coll ->
  environ !! "WORKING_DOCUMENT_NAME" = Some doc ->
  let self := COTS2021_app environ sh true g in
  (forall v, update_last_processed_row self v s =
     {| out := Return tt;
        store := <[(coll, doc) := {[ "last_processed_row" := v ]}]> s;
        events := [EFirestoreSet coll doc {[ "last_processed_row" := v ]}] |}) /\
  (forall fields v,
     s !! (coll, doc) = Some fields -> fields !! "last_processed_row" = Some v ->
     get_last_processed_row self s =
       {| out := Return (Some v); store := s;
          events := [ELog DEBUG (LogGetting (Some coll) (Some doc));
                     EFirestoreGet coll doc] |}).
Proof.
  intros Ht Hc Hd self.
  assert (Htype : working_storage_type (config self) = "firebase").
  { cbn. unfold getenv_default. now rewrite Ht. }
  assert (Hfb : working_storage_firebase (config self) =
           Some {| cred := environ !! "GOOGLE_APPLICATION_CREDENTIALS";
                   project_id := environ !! "FIREBASE_PROJECT_ID";
                   collection_name := environ !! "WORKING_COLLECTION_NAME";
                   document_name := environ !! "WORKING_DOCUMENT_NAME" |}).
  { unfold self. cbn [config COTS2021_app]. rewrite firebase_section_of_environ.
    change (working_storage_type (COTS2021_config environ))
      with (working_storage_type (config self)). now rewrite Htype. }
  split.
  - intros v. eapply update_last_processed_row_firebase; eauto.
  - intros fields v Hdoc Hf. eapply get_last_processed_row_firebase; eauto.
Qed.

Lemma checkpoint_document_from_environ_witness :
  let self := COTS2021_app environ_firebase None true always_uploaded in
  store (update_last_processed_row self 5 ∅) = checkpoint_at 5 /\
  out (get_last_processed_row self (checkpoint_at 5)) = Return (Some 5).
Proof.
  cbv zeta.
  destruct (checkpoint_document_from_environ environ_firebase None always_uploaded
              "parser" "state" ∅ eq_refl eq_refl eq_refl) as (Hu & _).
  destruct (checkpoint_document_from_environ environ_firebase None always_uploaded
              "parser" "state" (checkpoint_at 5) eq_refl eq_refl eq_refl) as (_ & Hg).
  split.
  - rewrite (Hu 5). reflexivity.
  - rewrite (Hg {[ "last_processed_row" := 5 ]} 5 eq_refl eq_refl). reflexivity.
Defined.




(** X8: the ways [get_last_processed_row] fails under the firebase
    storage: a checkpoint document without the field gives [KeyError]
    for [last_processed_row], and an unreachable database gives the
    client's error before any document is read. *)
Theorem get_last_processed_row_failures self fb coll doc s :
  working_storage_type (config self) = "firebase" ->
  working_storage_firebase (config self) = Some fb ->
  collection_name fb = Some coll -> document_name fb = Some doc ->
  (firestore_reachable self = true ->
   forall fields, s !! (coll, doc) = Some fields ->
     fields !! "last_processed_row" = None ->
     out (get_last_processed_row self s) = Raise (KeyError "last_processed_row")) /\
  (firestore_reachable self = false ->
   get_last_processed_row self s =
     {| out := Raise (OtherError "firestore"); store := s;
        events := [ELog DEBUG (LogGetting (Some coll) (Some doc))] |}).
Proof.
  intros Ht Hfb Hc Hd.
  unfold get_last_processed_row, firebase_section, document_ref.
  rewrite Ht, Hfb. unfold bind at 1 2; cbn. rewrite Hc, Hd. split.
  - intros Hr fields Hdoc Hf. rewrite Hr.
    unfold bind, ret, emit, firestore_get, subscript; cbn. rewrite Hdoc. cbn.
    now rewrite Hf.
  - intros Hr. rewrite Hr. reflexivity.
Qed.

Lemma get_last_processed_row_failures_witness :
  let self := app_of environ_firebase [] always_uploaded in
  let s : Firestore := {[ ("parser", "state") := {[ "row" := 3 ]} ]} in
  out (get_last_processed_row self s) = Raise (KeyError "last_processed_row").
Proof.
  cbv zeta.
  pose (fb := {| cred := Some "cred.json"; project_id := Some "cots";
                 collection_name := Some "parser"; document_name := Some "state" |}).
  refine (proj1 (get_last_processed_row_failures
            (app_of environ_firebase [] always_uploaded) fb "parser" "state" _
            eq_refl _ eq_refl eq_refl) eq_refl {[ "row" := 3 ]} _ _);
    vm_compute; reflexivity.
Defined.

(** ** When a document is built, and which *)

Lemma bind_ret_at {A B} (m : M A) (a : A) (k : A -> M B) s :
  m s = ret a s -> bind m k s = k a s.
Proof. intros H. unfold bind. rewrite H. cbn. now destruct (k a s). Qed.

Lemma add_paragraph_str x d :
  add_paragraph (Str x) d = ret (add_block (paragraph_of x) d).
Proof. destruct x; reflexivity. Qed.

Lemma always_raises_add_nan_l b : always_raises (add NaN b).
Proof. intros s. exact I. Qed.

Lemma always_raises_add_nan_r a : always_raises (add a NaN).
Proof. intros s. destruct a; exact I. Qed.

Lemma always_raises_add_paragraph_nan d : always_raises (add_paragraph NaN d).
Proof. intros s. exact I. Qed.

Lemma always_raises_bind_getitem {B} row k c (k' : cell -> M B) :
  row !! k = Some c -> always_raises (k' c) -> always_raises (bind (getitem row k) k').
Proof.
  intros H Hk s. unfold getitem. rewrite H, bind_ret_l. apply Hk.
Qed.

(** Search for the use of the empty cell as a text. *)
Ltac find_nan :=
  cbv beta;
  first
    [ solve [apply always_raises_add_nan_l]
    | solve [apply always_raises_add_nan_r]
    | solve [apply always_raises_add_paragraph_nan]
    | solve [eapply always_raises_bind_getitem; [eassumption|find_nan]]
    | solve [apply always_raises_bind_l; find_nan]
    | (apply always_raises_bind_r; intros; find_nan) ].

Lemma text_columns_required p k : k ∈ text_columns p -> k ∈ required_columns p.
Proof.
  intros H. apply list_elem_of_In in H. apply list_elem_of_In.
  destruct p; cbn in *; tauto.
Qed.

Lemma formatted_columns_required p k : k ∈ formatted_columns -> k ∈ required_columns p.
Proof.
  intros H. apply list_elem_of_In in H. apply list_elem_of_In.
  destruct p; cbn in *; tauto.
Qed.

Lemma builder_empty_cell p idx row k :
  k ∈ text_columns p -> row !! k = Some NaN -> always_raises (builder p idx row).
Proof.
  intros Hk H.
  destruct p; cbn [builder text_columns sections fmap list_fmap snd app] in *;
    unfold create_individual_proposal_doc, create_panel_proposal_doc,
      create_roundtable_proposal_doc, add_section, create_base_doc, fullname_of;
    repeat (apply elem_of_cons in Hk; destruct Hk as [->|Hk]; [find_nan|]);
    now apply elem_of_nil in Hk.
Qed.

(** With text where text is needed and the formatted columns present,
    the builder returns the document of the table. *)
Lemma builder_document p idx row s :
  (forall k, k ∈ text_columns p -> exists x, row !! k = Some (Str x)) ->
  (forall k, k ∈ formatted_columns -> is_Some (row !! k)) ->
  builder p idx row s = ret (document_of p row) s.
Proof.
  intros Htext Hfmt.
  assert (Hin : forall (k : string) l, In k l -> k ∈ l)
    by (intros k l; apply list_elem_of_In).
  destruct (Htext "First name") as [f Hf]; [apply Hin; destruct p; cbn; tauto|].
  destruct (Htext "Last name") as [l Hl]; [apply Hin; destruct p; cbn; tauto|].
  destruct (Hfmt "Email address") as [e He]; [apply Hin; cbn; tauto|].
  destruct (Hfmt "Timestamp") as [t Ht]; [apply Hin; cbn; tauto|].
  destruct (Hfmt "Affiliation") as [a Ha]; [apply Hin; cbn; tauto|].
  assert (Hbase : forall title, create_base_doc idx row title s =
    ret (add_block (paragraph
           [ {| text := "Affiliation:"; bold := true |};
             {| text := " " +:+ format a; bold := false |} ])
        (add_block (paragraph
           [ {| text := "Submitted by:"; bold := true |};
             {| text := " " +:+ ((f +:+ " ") +:+ l) +:+ " (" +:+ format e +:+ ")";
                bold := false |};
             {| text := " At:"; bold := true |};
             {| text := " " +:+ format t; bold := false |} ])
        (add_heading title 0 (set_normal_font "Arial" new_Document)))) s).
  { intros title. unfold create_base_doc.
    rewrite (bind_out_return _ _ _ ((f +:+ " ") +:+ l));
      [|now rewrite (fullname_of_str _ _ _ _ Hf Hl)].
    rewrite (fullname_of_str _ _ _ _ Hf Hl). cbn [ret store events out].
    unfold getitem. rewrite He, Ht, Ha. rewrite !bind_ret_l.
    cbn [ret]. reflexivity. }
  assert (Hsec : forall title k x d (rest : Document -> M Document),
    row !! k = Some (Str x) ->
    bind (add_section title row k d) rest s =
    rest (add_block (paragraph_of x) (add_heading title 1 d)) s).
  { intros title k x d rest Hk. apply bind_ret_at.
    unfold add_section, getitem. rewrite Hk.
    now rewrite bind_ret_l, add_paragraph_str. }
  assert (Hsec' : forall title k x d,
    row !! k = Some (Str x) ->
    add_section title row k d s =
    ret (add_block (paragraph_of x) (add_heading title 1 d)) s).
  { intros title k x d Hk. unfold add_section, getitem. rewrite Hk.
    now rewrite bind_ret_l, add_paragraph_str. }
  unfold document_of, text_of. rewrite Hf, Hl, He, Ht, Ha. cbn [format].
  destruct p; cbn [builder sections flat_map fst snd title_of app].
  - destruct (Htext "Abstract") as [x1 H1]; [apply Hin; cbn; tauto|].
    unfold create_individual_proposal_doc.
    rewrite (bind_out_return _ _ _ _ (f_equal out (Hbase _))), Hbase.
    cbn [ret store events out]. rewrite (Hsec' _ _ _ _ H1), H1. reflexivity.
  - destruct (Htext "Topic of the panel") as [x1 H1]; [apply Hin; cbn; tauto|].
    destruct (Htext "Names of the panelists") as [x2 H2]; [apply Hin; cbn; tauto|].
    destruct (Htext "Contact information of the panelists") as [x3 H3];
      [apply Hin; cbn; tauto|].
    destruct (Htext "Abstracts") as [x4 H4]; [apply Hin; cbn; tauto|].
    unfold create_panel_proposal_doc.
    rewrite (bind_out_return _ _ _ _ (f_equal out (Hbase _))), Hbase.
    cbn [ret store events out].
    rewrite (Hsec _ _ _ _ _ H1), (Hsec _ _ _ _ _ H2), (Hsec _ _ _ _ _ H3).
    rewrite (Hsec' _ _ _ _ H4), H1, H2, H3, H4. reflexivity.
  - destruct (Htext "Abstract.1") as [x1 H1]; [apply Hin; cbn; tauto|].
    destruct (Htext "Name of the participants") as [x2 H2]; [apply Hin; cbn; tauto|].
    destruct (Htext "Contact information of the participants") as [x3 H3];
      [apply Hin; cbn; tauto|].
    unfold create_roundtable_proposal_doc.
    rewrite (bind_out_return _ _ _ _ (f_equal out (Hbase _))), Hbase.
    cbn [ret store events out].
    rewrite (Hsec _ _ _ _ _ H1), (Hsec _ _ _ _ _ H2).
    rewrite (Hsec' _ _ _ _ H3), H1, H2, H3. reflexivity.
Qed.

(** A builder that returns found text where text is needed and found
    the formatted columns. *)
Lemma builder_returns_inv p idx row s :
  returns (builder p idx row s) ->
  (forall k, k ∈ text_columns p -> exists x, row !! k = Some (Str x)) /\
  (forall k, k ∈ formatted_columns -> is_Some (row !! k)).
Proof.
  intros Hret.
  assert (Hno : forall k, k ∈ required_columns p -> row !! k <> None).
  { intros k Hk Hnone. pose proof (builder_absent p idx row k Hk Hnone s) as Hr.
    unfold returns, raises in *. destruct (out (builder p idx row s)); auto. }
  split.
  - intros k Hk. destruct (row !! k) as [[x|]|] eqn:E.
    + eauto.
    + pose proof (builder_empty_cell p idx row k Hk E s) as Hr.
      unfold returns, raises in *. destruct (out (builder p idx row s)); contradiction.
    + destruct (Hno k (text_columns_required p k Hk) E).
  - intros k Hk. destruct (row !! k) eqn:E; [eauto|].
    destruct (Hno k (formatted_columns_required p k Hk) E).
Qed.


(** X10: the document that a builder returns is the one of the table of
    sections: Arial, the title of the kind, the paragraph of the
    submitter with name, e-mail address and timestamp, the paragraph of
    the affiliation, and for every section of the kind its heading and
    the text of its column; an empty e-mail, timestamp or affiliation
    cell appears as [nan].  It depends neither on the row index nor on
    the database. *)
Theorem builder_returns_document_of p idx row s document :
  out (builder p idx row s) = Return document ->
  document = document_of p row.
Proof.
  intros H.
  assert (Hret : returns (builder p idx row s)) by (unfold returns; now rewrite H).
  apply builder_returns_inv in Hret. destruct Hret as [Htext Hfmt].
  rewrite (builder_document p idx row s Htext Hfmt) in H. cbn in H. congruence.
Qed.

Lemma builder_returns_document_of_witness :
  exists document,
    out (builder Panel 7 row_ada ∅) = Return document /\
    document = document_of Panel row_ada.
Proof.
  eexists. split; [vm_compute; reflexivity|].
  apply (builder_returns_document_of Panel 7 row_ada ∅). vm_compute. reflexivity.
Defined.

(** ** Uploads, saves and pauses *)

Lemma saved_app evs1 evs2 : saved (evs1 ++ evs2) = saved evs1 ++ saved evs2.
Proof. apply omap_app. Qed.

Lemma sleeps_app evs1 evs2 : sleeps (evs1 ++ evs2) = sleeps evs1 ++ sleeps evs2.
Proof. apply omap_app. Qed.

(** What the loop needs to know of the uploads of one row. *)
Lemma parse_row_uploads_aux self idx row s :
  let evs := events (parse_row self idx row s) in
  saved evs = (fun u => u.1.2) <$> uploads evs /\
  (returns (parse_row self idx row s) -> length (uploads evs) = 1%nat) /\
  sleeps evs = [].
Proof.
  cbv zeta.
  destruct (parse_row_cases self idx row s)
    as [[Hr Hev]|(fullname & parent & t & document & Hf & Hsel)].
  - rewrite Hev. cbn. repeat split; auto.
    intros Hret. unfold raises, returns in *.
    destruct (out (parse_row self idx row s)); contradiction.
  - rewrite (parse_row_bound _ _ _ _ _ _ _ _ Hf Hsel). cbv zeta. cbn [events out].
    rewrite saved_app, uploads_app, sleeps_app.
    destruct (gservice self _ document); cbn; repeat split; auto.
Qed.

(** X11: [parse_row] saves exactly the documents that it uploads: it
    sends at most one upload request, exactly one when it returns, the
    request carries the document saved just before, and the row itself
    never pauses. *)
Theorem parse_row_uploads_what_it_saves self idx row s :
  let evs := events (parse_row self idx row s) in
  saved evs = (fun u => u.1.2) <$> uploads evs /\
  (length (uploads evs) <= 1)%nat /\
  (returns (parse_row self idx row s) -> length (uploads evs) = 1%nat) /\
  sleeps evs = [].
Proof.
  cbv zeta.
  destruct (parse_row_cases self idx row s)
    as [[Hr Hev]|(fullname & parent & t & document & Hf & Hsel)].
  - rewrite Hev. cbn. repeat split; auto.
    intros Hret. unfold raises, returns in *.
    destruct (out (parse_row self idx row s)); contradiction.
  - rewrite (parse_row_bound _ _ _ _ _ _ _ _ Hf Hsel). cbv zeta. cbn [events out].
    rewrite saved_app, uploads_app, sleeps_app.
    destruct (gservice self _ document); cbn; repeat split; auto.
Qed.

(** The same counts along the loop. *)
Lemma parse_loop_uploads self rows last s :
  let evs := events (parse_loop self rows last s) in
  saved evs = (fun u => u.1.2) <$> uploads evs /\
  Forall (fun n => n = 3) (sleeps evs) /\
  (returns (parse_loop self rows last s) ->
   length (uploads evs) = length rows /\ length (sleeps evs) = length rows).
Proof.
  cbv zeta. revert last. induction rows as [|[idx row] rows IH]; intros last.
  - cbn. repeat split; auto.
  - destruct (parse_row_uploads_aux self idx row s) as (Hsv & Hone & Hsl).
    destruct (out (parse_row self idx row s)) as [[]|e] eqn:H.
    + rewrite (parse_loop_cons_return _ _ _ _ _ _ H). cbn [events out].
      destruct (IH idx) as (IHsv & IHsl & IHret).
      rewrite saved_app, uploads_app, sleeps_app, Hsl.
      change (saved (ESleep 3 :: ?l)) with (saved l).
      change (uploads (ESleep 3 :: ?l)) with (uploads l).
      change (sleeps (ESleep 3 :: ?l)) with (3 :: sleeps l).
      rewrite fmap_app, Hsv, IHsv. split; [reflexivity|].
      split; [constructor; auto|].
      intros Hret. destruct (IHret Hret) as (Hu & Hs).
      rewrite length_app, Hu, Hone by (unfold returns; now rewrite H).
      cbn [length app]. now rewrite Hs.
    + rewrite (parse_loop_cons_raise _ _ _ _ _ _ _ H). cbn [events out].
      rewrite Hsl. split; [exact Hsv|]. split; [constructor|].
      intros Hret. destruct Hret.
Qed.

(** ** Completed and aborted runs *)

(** A run that completes fetched the table and read an index from the
    document that the configuration addresses. *)
Lemma parse_returns_inv self s :
  returns (parse self s) ->
  exists cols rows c fb coll doc,
    sheet self = Some (cols, rows) /\
    out (get_last_processed_row self s) = Return (Some c) /\
    working_storage_firebase (config self) = Some fb /\
    collection_name fb = Some coll /\ document_name fb = Some doc /\
    returns (parse_loop self
               (iterrows (iloc_from {| columns := cols; records := label_from 0 rows |}
                            (c + 1))) c s).
Proof.
  intros Hret.
  destruct (sheet self) as [[cols rows]|] eqn:Hs.
  2: { destruct (parse_no_start self s (or_introl Hs)) as (Hr & _).
       unfold raises, returns in *. destruct (out (parse self s)); contradiction. }
  destruct (out (get_last_processed_row self s)) as [[c|]|e] eqn:Hg.
  2,3: assert (Hno : forall c, out (get_last_processed_row self s) <> Return (Some c))
         by (intros c; rewrite Hg; discriminate);
       destruct (parse_no_start self s (or_intror Hno)) as (Hr & _);
       unfold raises, returns in *; destruct (out (parse self s)); contradiction.
  destruct (get_last_processed_row_inv _ _ _ Hg)
    as (fb & coll & doc & fields & _ & Hfb & Hc & Hd & _).
  exists cols, rows, c, fb, coll, doc. repeat split; auto.
  pose proof (parse_run self s cols rows c fb coll doc Hs Hg Hfb Hc Hd) as Hrun.
  cbv zeta in Hrun. unfold returns in *.
  destruct (out (parse_loop self _ c s)); [exact I|].
  rewrite Hrun in Hret. exact Hret.
Qed.

(** X12: a run that completes has sent exactly one upload request for
    every row it visited, each for the document saved for that row, and
    has paused three seconds after every row. *)
Theorem completed_run_uploads_every_row self s :
  returns (parse self s) ->
  let evs := events (parse self s) in
  length (uploads evs) = length (visited evs) /\
  saved evs = (fun u => u.1.2) <$> uploads evs /\
  length (sleeps evs) = length (visited evs) /\
  Forall (fun n => n = 3) (sleeps evs).
Proof.
  intros Hret.
  destruct (parse_returns_inv self s Hret)
    as (cols & rows & c & fb & coll & doc & Hs & Hg & Hfb & Hc & Hd & Hloop).
  pose proof (parse_run self s cols rows c fb coll doc Hs Hg Hfb Hc Hd) as Hrun.
  cbv zeta in Hrun |- *.
  set (l := iterrows (iloc_from {| columns := cols; records := label_from 0 rows |} (c + 1))) in *.
  destruct (parse_loop_uploads self l c s) as (Hsv & Hsl & Hcount).
  destruct (Hcount Hloop) as (Hu & Hn).
  unfold returns in Hloop.
  destruct (out (parse_loop self l c s)) as [v|e] eqn:Hl; [|contradiction].
  destruct (parse_loop_return _ _ _ _ _ Hl) as (_ & Hv & _).
  rewrite Hrun. cbn [events].
  apply (f_equal length) in Hv. rewrite length_fmap in Hv.
  set (r := parse_loop self l c s) in *. clearbody r.
  rewrite !uploads_app, !visited_app, !saved_app, !sleeps_app.
  simpl. rewrite !app_nil_r.
  rewrite Hu, Hn, Hv. auto.
Qed.

Lemma completed_run_uploads_every_row_witness :
  let self := app_of environ_firebase [row_ada; row_grace; row_ada] drive_rejecting_first in
  let evs := events (parse self (checkpoint_at (-1))) in
  length (uploads evs) = 3%nat /\ sleeps evs = [3; 3; 3].
Proof.
  cbv zeta.
  destruct (completed_run_uploads_every_row
              (app_of environ_firebase [row_ada; row_grace; row_ada] drive_rejecting_first)
              (checkpoint_at (-1))) as (Hu & _ & _ & _); [vm_compute; exact I|].
  split; [rewrite Hu|]; vm_compute; reflexivity.
Defined.

(** A run that is aborted leaves the database as it was. *)
Lemma parse_raises_store self s : raises (parse self s) -> store (parse self s) = s.
Proof.
  intros Hr.
  destruct (sheet self) as [[cols rows]|] eqn:Hs.
  2: { now destruct (parse_no_start self s (or_introl Hs)) as (_ & Hst & _). }
  destruct (out (get_last_processed_row self s)) as [[c|]|e] eqn:Hg.
  2,3: assert (Hno : forall c, out (get_last_processed_row self s) <> Return (Some c))
         by (intros c; rewrite Hg; discriminate);
       now destruct (parse_no_start self s (or_intror Hno)) as (_ & Hst & _).
  destruct (parse_run_observed self s cols rows c Hs Hg) as (coll & doc & _ & H).
  cbv zeta in H. unfold raises in Hr.
  destruct (out (parse_loop self _ c s)).
  - destruct H as (Ho & _). rewrite Ho in Hr. contradiction.
  - now destruct H as (_ & Hst & _).
Qed.



(** X14: a run changes no Firestore document but the checkpoint
    document that the configuration addresses. *)
Theorem parse_keeps_other_documents self s ref :
  checkpoint_address self <> Some ref ->
  store (parse self s) !! ref = s !! ref.
Proof.
  intros Href.
  destruct (out (parse self s)) as [[]|e] eqn:Ho.
  - assert (Hret : returns (parse self s)) by (unfold returns; now rewrite Ho).
    destruct (parse_returns_inv self s Hret)
      as (cols & rows & c & fb & coll & doc & Hs & Hg & Hfb & Hc & Hd & Hloop).
    pose proof (parse_run self s cols rows c fb coll doc Hs Hg Hfb Hc Hd) as Hrun.
    cbv zeta in Hrun. unfold returns in Hloop.
    destruct (out (parse_loop self _ c s)) as [v|]; [|contradiction].
    rewrite Hrun. cbn [store]. apply lookup_insert_ne.
    unfold checkpoint_address in Href. rewrite Hfb, Hc, Hd in Href. congruence.
  - rewrite parse_raises_store; [reflexivity|]. unfold raises. now rewrite Ho.
Qed.

Lemma parse_keeps_other_documents_witness :
  let self := app_of environ_firebase [row_ada] always_uploaded in
  let s : Firestore := <[("parser", "notes") := {[ "n" := 1 ]}]> (checkpoint_at (-1)) in
  store (parse self s) !! ("parser", "notes") = Some {[ "n" := 1 ]}.
Proof.
  cbv zeta. rewrite parse_keeps_other_documents; [reflexivity|].
  vm_compute. discriminate.
Defined.

(** ** Checkpoints at the edges of the table *)




(** X16: a stored value [c] below [-1] does not restart the run at row
    0: [df.iloc[c+1:]] counts from the end, so the new rows are the last
    [-(c+1)] rows of the table (all rows when the table is shorter), and
    a run that completes visits exactly those. *)
Theorem parse_checkpoint_below_sentinel self s cols rows c :
  sheet self = Some (cols, rows) ->
  out (get_last_processed_row self s) = Return (Some c) ->
  c < -1 ->
  let n := Z.of_nat (length rows) in
  let first := Z.max 0 (n + c + 1) in
  (iterrows (iloc_from {| columns := cols; records := label_from 0 rows |} (c + 1))).*1 =
    seqZ first (n - first) /\
  (returns (parse self s) -> visited (events (parse self s)) = seqZ first (n - first)).
Proof.
  intros Hs Hg Hc n first.
  assert (Hlab : (iterrows (iloc_from {| columns := cols; records := label_from 0 rows |}
                     (c + 1))).*1 = seqZ first (n - first)).
  { rewrite iloc_from_labels. cbv zeta. fold n.
    assert (Hk : slice_start (c + 1) n = first).
    { unfold slice_start, first. destruct (c + 1 <? 0) eqn:E; [f_equal; lia|lia]. }
    now rewrite Hk. }
  split; [exact Hlab|]. intros Hret.
  destruct (parse_run_observed self s cols rows c Hs Hg) as (coll & doc & Hvis & H).
  cbv zeta in Hvis, H. rewrite Hvis, <- Hlab.
  destruct (out (parse_loop self _ c s)) as [v|e] eqn:Hl.
  - now destruct (parse_loop_return _ _ _ _ _ Hl) as (_ & Hv & _).
  - destruct H as (Ho & _). unfold returns in Hret. rewrite Ho in Hret. contradiction.
Qed.

Lemma parse_checkpoint_below_sentinel_witness :
  let self := app_of environ_firebase [row_ada; row_grace; row_ada] always_uploaded in
  visited (events (parse self (checkpoint_at (-2)))) = [2].
Proof.
  cbv zeta.
  destruct (parse_checkpoint_below_sentinel
              (app_of environ_firebase [row_ada; row_grace; row_ada] always_uploaded)
              (checkpoint_at (-2)) column_names [row_ada; row_grace; row_ada] (-2)
              eq_refl) as (_ & Hvis); [vm_compute; reflexivity|lia|].
  rewrite Hvis; [reflexivity|]. vm_compute. exact I.
Defined.

(** ** Resuming on a table that has grown *)

Lemma label_from_app i rows extra :
  label_from i (rows ++ extra) =
    label_from i rows ++ label_from (i + Z.of_nat (length rows)) extra.
Proof.
  revert i. induction rows as [|r rows IH]; intros i.
  - cbn [app label_from length]. replace (i + Z.of_nat 0) with i by lia. reflexivity.
  - cbn [app label_from length]. rewrite IH.
    replace (i + Z.of_nat (S (length rows))) with (i + 1 + Z.of_nat (length rows)) by lia.
    reflexivity.
Qed.

(** X17: after a run that completed on a table of [n] rows (with a
    checkpoint in [-1 .. n-1]), a run on the table with rows appended
    reads the checkpoint [n - 1], selects exactly the appended rows with
    the indices from [n] on, visits them in that order up to the first
    one that raises, and visits all of them when it completes. *)
Theorem resume_on_grown_table self s cols rows extra c :
  sheet self = Some (cols, rows) ->
  out (get_last_processed_row self s) = Return (Some c) ->
  -1 <= c <= Z.of_nat (length rows) - 1 ->
  returns (parse self s) ->
  let n := Z.of_nat (length rows) in
  let self' := with_sheet self cols (rows ++ extra) in
  let s' := store (parse self s) in
  out (get_last_processed_row self' s') = Return (Some (n - 1)) /\
  iterrows (iloc_from {| columns := cols; records := label_from 0 (rows ++ extra) |}
              (n - 1 + 1)) = label_from n extra /\
  visited (events (parse self' s')) `prefix_of` seqZ n (Z.of_nat (length extra)) /\
  (returns (parse self' s') ->
   visited (events (parse self' s')) = seqZ n (Z.of_nat (length extra))).
Proof.
  intros Hs Hg Hc Hret n self' s'.
  (* the checkpoint that the first run stored *)
  assert (Hback : out (get_last_processed_row self s') = Return (Some (n - 1))).
  { destruct (parse_run_observed self s cols rows c Hs Hg) as (coll & doc & _ & H).
    cbv zeta in H.
    destruct (out (parse_loop self _ c s)) as [v|e] eqn:Hl.
    - destruct H as (_ & _ & _ & _ & Hb).
      destruct (parse_loop_return _ _ _ _ _ Hl) as (_ & _ & Hv).
      rewrite iloc_from_labels in Hv. cbv zeta in Hv. fold n in Hv.
      rewrite slice_start_checkpoint in Hv by lia.
      rewrite default_last_seqZ in Hv by lia.
      unfold s'. rewrite Hb. do 2 f_equal. case_decide; lia.
    - destruct H as (Ho & _). unfold returns in Hret. rewrite Ho in Hret. contradiction. }
  assert (Hrows : iterrows (iloc_from
            {| columns := cols; records := label_from 0 (rows ++ extra) |} (n - 1 + 1)) =
          label_from n extra).
  { unfold iterrows, iloc_from. cbn [records].
    rewrite label_from_length, length_app.
    assert (Hk : slice_start (n - 1 + 1)
                   (Z.of_nat (length rows + length extra)) = n).
    { unfold slice_start. destruct (n - 1 + 1 <? 0) eqn:E; lia. }
    rewrite Hk. unfold n. rewrite Nat2Z.id, label_from_app.
    rewrite drop_app_length'; [|symmetry; apply label_from_length].
    f_equal. }
  split; [exact Hback|]. split; [exact Hrows|].
  assert (Hs' : sheet self' = Some (cols, rows ++ extra)) by reflexivity.
  destruct (parse_run_observed self' s' cols (rows ++ extra) (n - 1) Hs' Hback)
    as (coll & doc & Hvis & H).
  cbv zeta in Hvis, H. rewrite Hrows in Hvis, H. rewrite Hvis.
  rewrite <- (label_from_fst n extra).
  destruct (out (parse_loop self' (label_from n extra) (n - 1) s')) as [v|e] eqn:Hl.
  - destruct (parse_loop_return _ _ _ _ _ Hl) as (_ & Hv & _). rewrite Hv.
    split; [reflexivity|auto].
  - destruct (parse_loop_raise _ _ _ _ _ Hl) as (pre & i & r & post & Hl' & _ & _ & Hv).
    rewrite Hv, Hl'. split.
    + exists (post.*1). rewrite fmap_app, <- app_assoc. reflexivity.
    + destruct H as (Ho & _). intros Hret'. unfold returns in Hret'.
      rewrite Ho in Hret'. contradiction.
Qed.

Lemma resume_on_grown_table_witness :
  let self := app_of environ_firebase [row_ada] always_uploaded in
  let self' := with_sheet self column_names ([row_ada] ++ [row_grace; row_ada]) in
  visited (events (parse self' (store (parse self (checkpoint_at (-1)))))) = [1; 2].
Proof.
  cbv zeta.
  destruct (resume_on_grown_table (app_of environ_firebase [row_ada] always_uploaded)
              (checkpoint_at (-1)) column_names [row_ada] [row_grace; row_ada] (-1)
              eq_refl) as (_ & _ & _ & Hvis);
    [vm_compute; reflexivity|cbn; lia|vm_compute; exact I|].
  rewrite Hvis; [reflexivity|]. vm_compute. exact I.
Defined.

(** ** Folders and the order of the steps *)

Lemma folder_of_environ environ sh reachable g p :
  folder_of (COTS2021_app environ sh reachable g) p = environ !! folder_variable p.
Proof. destruct p; reflexivity. Qed.

(** X18: for an object built from the environment, the upload request
    of a row names as its only parent the value of the environment
    variable of the row's kind; when that variable is unset the request
    is still sent, with [None] as the parent. *)
Theorem upload_folder_from_environ environ sh reachable g idx row p document s :
  let self := COTS2021_app environ sh reachable g in
  row !! Q = Some (Str (variant p)) ->
  returns (fullname_of row s) ->
  out (builder p idx row s) = Return document ->
  (fun u => parents u.1.1) <$> uploads (events (parse_row self idx row s)) =
    [[environ !! folder_variable p]].
Proof.
  intros self HQ Hf Hb. unfold returns in Hf.
  destruct (out (fullname_of row s)) as [fullname|e] eqn:Hfull; [|contradiction].
  pose proof (select_proposal_built self idx row p document s HQ Hb) as Hsel.
  rewrite (parse_row_bound _ _ _ _ _ _ _ _ Hfull Hsel). cbv zeta. cbn [events].
  rewrite uploads_app. unfold self. rewrite folder_of_environ.
  destruct (gservice _ _ document); reflexivity.
Qed.

Lemma upload_folder_from_environ_witness :
  let unset := delete "PANEL_PROPOSAL_FOLDER_ID" environ_firebase in
  (fun u => parents u.1.1) <$>
    uploads (events (parse_row (COTS2021_app unset None true always_uploaded)
                       0 row_ada ∅)) = [[None]].
Proof.
  cbv zeta.
  assert (Hb : exists document, out (builder Panel 0 row_ada ∅) = Return document).
  { eexists. vm_compute. reflexivity. }
  destruct Hb as (document & Hb).
  rewrite (upload_folder_from_environ _ None true always_uploaded 0 row_ada Panel document ∅);
    [reflexivity|vm_compute; reflexivity|vm_compute; exact I|exact Hb].
Defined.

Lemma get_last_processed_row_quiet self s :
  uploads (events (get_last_processed_row self s)) = [] /\
  saved (events (get_last_processed_row self s)) = [] /\
  sleeps (events (get_last_processed_row self s)) = [].
Proof.
  unfold get_last_processed_row, firebase_section, document_ref.
  destruct (String.eqb _ _); [|auto].
  destruct (working_storage_firebase (config self)) as [fb|]; [|auto].
  unfold bind at 1 2; cbn.
  destruct (collection_name fb) as [coll|]; [|auto].
  destruct (document_name fb) as [doc|]; [|auto].
  destruct (firestore_reachable self); [|auto].
  unfold bind, ret, emit, firestore_get, subscript; cbn.
  destruct (s !! (coll, doc)) as [fields|]; [|auto]. cbn.
  destruct (fields !! "last_processed_row"); auto.
Qed.

(** X19: nothing is saved or uploaded and no pause is made unless the
    table was fetched and an index was read from the checkpoint
    document: a run that cannot start uploads nothing. *)
Theorem parse_uploads_only_after_checkpoint self s :
  uploads (events (parse self s)) <> [] \/ saved (events (parse self s)) <> [] \/
  sleeps (events (parse self s)) <> [] ->
  exists cols rows c,
    sheet self = Some (cols, rows) /\
    out (get_last_processed_row self s) = Return (Some c).
Proof.
  intros H.
  assert (Hquiet : forall evs : list event,
            uploads evs = [] -> saved evs = [] -> sleeps evs = [] ->
            events (parse self s) = evs -> False).
  { intros evs Hu Hsv Hsl Hev. rewrite Hev in H. tauto. }
  unfold parse, read_csv in Hquiet.
  destruct (sheet self) as [[cols rows]|] eqn:Hs.
  2: { exfalso. apply (Hquiet []); reflexivity. }
  rewrite bind_ret_l in Hquiet.
  destruct (get_last_processed_row_quiet self s) as (Hu & Hsv & Hsl).
  destruct (out (get_last_processed_row self s)) as [[c|]|e] eqn:Hg.
  - eauto.
  - exfalso. rewrite (bind_out_return _ _ _ _ Hg) in Hquiet. cbn [out store events] in Hquiet.
    rewrite bind_emit in Hquiet. unfold int_operand, raise, bind in Hquiet.
    cbn [out store events] in Hquiet.
    eapply Hquiet; [| | |reflexivity].
    + now rewrite uploads_app, Hu.
    + now rewrite saved_app, Hsv.
    + now rewrite sleeps_app, Hsl.
  - exfalso. rewrite (bind_out_raise _ _ _ _ Hg) in Hquiet. cbn [out store events] in Hquiet.
    eapply Hquiet; eauto.
Qed.

Lemma parse_uploads_only_after_checkpoint_witness :
  let self := app_of environ_firebase [row_ada] always_uploaded in
  exists cols rows c,
    sheet self = Some (cols, rows) /\
    out (get_last_processed_row self (checkpoint_at (-1))) = Return (Some c).
Proof.
  cbv zeta.
  apply (parse_uploads_only_after_checkpoint
           (app_of environ_firebase [row_ada] always_uploaded) (checkpoint_at (-1))).
  left. vm_compute. discriminate.
Defined.
